(** * Hotel booking backend: the interval-overlap booking engine

    A shallow embedding of [src/main.py] ([check_availability] and
    [create_booking]) and of the schemas of [src/schemas.py] they use,
    followed by the properties of the booking engine.

    Layout: calendar dates as CPython's [datetime.date] has them, Python
    numbers, the documents of the store, a state-and-exception monad for the
    request handlers, the handlers themselves, a concrete runtime on which the
    handlers can be run, and then the theorems. *)

From Stdlib Require Import ZArith List String Ascii Bool Lia Floats.
Import ListNotations.

Open Scope Z_scope.

(* ------------------------------------------------------------------------- *)
(** ** Calendar dates ([datetime.date]) *)

Module Date.

(** A [datetime.date]: the three integers CPython stores. *)
Record date : Set := mkdate { year : Z; month : Z; day : Z }.

(** [date._cmp]: the comparison of the tuples (year, month, day). *)
Definition _cmp (x y : date) : comparison :=
  match year x ?= year y with
  | Eq => match month x ?= month y with
          | Eq => day x ?= day y
          | c => c
          end
  | c => c
  end.

(** [x <= y], [x >= y] and [x < y] on dates. *)
Definition leb (x y : date) : bool :=
  match _cmp x y with Gt => false | _ => true end.

Definition geb (x y : date) : bool :=
  match _cmp x y with Lt => false | _ => true end.

Definition ltb (x y : date) : bool :=
  match _cmp x y with Lt => true | _ => false end.

(** [_is_leap], [_days_before_year], [_days_in_month], [_days_before_month]
    and [_ymd2ord] of CPython's [datetime.py]; Python's [//] and [%] on a
    positive divisor are [Z.div] and [Z.modulo]. *)
Definition _is_leap (y : Z) : bool :=
  (y mod 4 =? 0) && (negb (y mod 100 =? 0) || (y mod 400 =? 0)).

Definition _days_before_year (y : Z) : Z :=
  let y' := y - 1 in y' * 365 + y' / 4 - y' / 100 + y' / 400.

Definition _DAYS_IN_MONTH (m : Z) : Z :=
  match m with
  | 1 => 31 | 2 => 28 | 3 => 31 | 4 => 30 | 5 => 31 | 6 => 30
  | 7 => 31 | 8 => 31 | 9 => 30 | 10 => 31 | 11 => 30 | 12 => 31
  | _ => -1
  end.

Definition _DAYS_BEFORE_MONTH (m : Z) : Z :=
  match m with
  | 1 => 0 | 2 => 31 | 3 => 59 | 4 => 90 | 5 => 120 | 6 => 151
  | 7 => 181 | 8 => 212 | 9 => 243 | 10 => 273 | 11 => 304 | 12 => 334
  | _ => -1
  end.

Definition _days_in_month (y m : Z) : Z :=
  if (m =? 2) && _is_leap y then 29 else _DAYS_IN_MONTH m.

Definition _days_before_month (y m : Z) : Z :=
  _DAYS_BEFORE_MONTH m + (if (2 <? m) && _is_leap y then 1 else 0).

Definition _ymd2ord (y m d : Z) : Z :=
  _days_before_year y + _days_before_month y m + d.

Definition toordinal (x : date) : Z := _ymd2ord (year x) (month x) (day x).

(** [(x - y).days]: the difference of two dates is the [timedelta] of the
    difference of their ordinals. *)
Definition sub_days (x y : date) : Z := toordinal x - toordinal y.

(** The dates a [datetime.date] object can hold ([MINYEAR] = 1,
    [MAXYEAR] = 9999). *)
Definition valid (x : date) : bool :=
  (1 <=? year x) && (year x <=? 9999) &&
  (1 <=? month x) && (month x <=? 12) &&
  (1 <=? day x) && (day x <=? _days_in_month (year x) (month x)).

End Date.

Export Date(date, mkdate).

Declare Scope date_scope.
Delimit Scope date_scope with date.
Infix "<=?" := Date.leb (at level 70) : date_scope.
Infix ">=?" := Date.geb (at level 70) : date_scope.
Infix "<?" := Date.ltb (at level 70) : date_scope.

(* ------------------------------------------------------------------------- *)
(** ** The overlap test *)

(** The condition of the [if] in the booking loop of both handlers
    ([main.py], lines 176 and 207, the same expression):
    [not (co <= b_ci or ci >= b_co)]. *)
Definition overlaps (ci co b_ci b_co : date) : bool :=
  negb ((co <=? b_ci)%date || (ci >=? b_co)%date).

(* ------------------------------------------------------------------------- *)
(** ** Python numbers *)

(** A price is a Python [int] or a [float] (an IEEE 754 binary64, Rocq's
    primitive [float]). *)
Inductive number : Set :=
| PyInt (z : Z)
| PyFloat (f : float).

(** [float(z)]: the binary64 nearest to the integer [z], ties to even. *)
Definition float_of_Z (z : Z) : float :=
  SF2Prim (binary_normalize prec emax z 0 false).

(** [n * x] for an [int] n: an integer product, or the product of
    [float(n)] and [x] when [x] is a [float]. *)
Definition py_mul_int (n : Z) (x : number) : number :=
  match x with
  | PyInt p => PyInt (n * p)
  | PyFloat f => PyFloat (PrimFloat.mul (float_of_Z n) f)
  end.

(** Python's [==] on numbers: an [int] is compared with a [float] through
    its conversion, which is Python's answer for the integers a [float]
    holds exactly (below 2^53 in size); beyond them Python compares the
    exact values. *)
Definition py_num_eqb (x y : number) : bool :=
  match x, y with
  | PyInt a, PyInt b => a =? b
  | PyInt a, PyFloat g => PrimFloat.eqb (float_of_Z a) g
  | PyFloat f, PyInt b => PrimFloat.eqb f (float_of_Z b)
  | PyFloat f, PyFloat g => PrimFloat.eqb f g
  end.

(* ------------------------------------------------------------------------- *)
(** ** Documents and the store *)

(** A Mongo [ObjectId], held by its canonical string [str(oid)]. *)
Definition oid : Set := string.

(** A stored document: the [_id] the store assigned and the fields. *)
Record stored (A : Type) : Type := mkstored { _id : oid; doc : A }.
Arguments mkstored {A} _ _.
Arguments _id {A} _.
Arguments doc {A} _.

(** The result of [serialize_doc]: the [_id] is popped and its string is
    put under [id]; the other fields are kept. *)
Record serialized (A : Type) : Type := mkserialized { id : string; fields : A }.
Arguments mkserialized {A} _ _.
Arguments id {A} _.
Arguments fields {A} _.

Definition serialize_doc {A : Type} (d : stored A) : serialized A :=
  {| id := _id d; fields := doc d |}.

(** A document of the [room] collection ([schemas.Room]). The handlers read
    [price_per_night] and [capacity] with [dict.get] and a default, so the
    two keys may be missing. *)
Module Room.
Record t : Set := mk {
  hotel_id : string;
  name : string;
  price_per_night : option number;
  capacity : option Z;
  amenities : list string;
  images : option (list string)
}.
End Room.

(** The request body of [POST /book] ([schemas.Booking]), as validated:
    [check_in] and [check_out] are [date] objects and [total_price] a
    [float]. *)
Module Booking.
Record t : Set := mk {
  hotel_id : string;
  room_id : string;
  guest_name : string;
  guest_email : string;
  check_in : date;
  check_out : date;
  guests : Z;
  total_price : float;
  status : string
}.

(** The constraints of the schema: [guests >= 1] and [total_price >= 0]. *)
Definition valid (p : t) : bool :=
  (1 <=? guests p) && PrimFloat.leb 0 (total_price p).

(** The payload with another client-supplied [total_price]. *)
Definition with_total_price (p : t) (tp : float) : t :=
  mk (hotel_id p) (room_id p) (guest_name p) (guest_email p)
     (check_in p) (check_out p) (guests p) tp (status p).
End Booking.

(** A document of the [booking] collection: the dump of a [Booking] in which
    the dates are ISO strings and [total_price] is the number the handler
    computed. *)
Module BookingDoc.
Record t : Set := mk {
  hotel_id : string;
  room_id : string;
  guest_name : string;
  guest_email : string;
  check_in : string;
  check_out : string;
  guests : Z;
  total_price : number;
  status : string
}.
End BookingDoc.

(** The request body of [POST /availability/{hotel_id}]. *)
Module AvailabilityQuery.
Record t : Set := mk {
  check_in : string;
  check_out : string;
  guests : Z
}.
End AvailabilityQuery.

(** The two collections the handlers use, in the order of insertion, and the
    number of documents the store has created so far. *)
Record database : Type := mkdb {
  room : list (stored Room.t);
  booking : list (stored BookingDoc.t);
  inserted : nat
}.

(** The global [db] of the handlers: [None] when no store is configured. *)
Definition world : Type := option database.

(** [db[coll].find({key: v})] and [find_one({"_id": o})] on the two
    collections. *)
Definition find_rooms_by_hotel (db : database) (hotel_id : string)
  : list (stored Room.t) :=
  filter (fun r => String.eqb (Room.hotel_id (doc r)) hotel_id) (room db).

Definition find_bookings_by_room (db : database) (room_id : string)
  : list (stored BookingDoc.t) :=
  filter (fun b => String.eqb (BookingDoc.room_id (doc b)) room_id) (booking db).

Definition find_one_room (db : database) (o : oid) : option (stored Room.t) :=
  find (fun r => String.eqb (_id r) o) (room db).

(* ------------------------------------------------------------------------- *)
(** ** Library functions of the runtime *)

(** The functions of Python's [datetime] and of [bson] the handlers call,
    and the identifiers the store hands out. *)
Class PyLib : Type := {
  (** [datetime.fromisoformat(s).date()]; [None] is a [ValueError]. *)
  fromisoformat : string -> option date;
  (** [d.isoformat()]. *)
  isoformat : date -> string;
  (** [ObjectId(s)], as its string; [None] is [bson.errors.InvalidId]. *)
  ObjectId : string -> option oid;
  (** The identifier of the n-th document the store creates. *)
  generate_id : nat -> oid
}.

(* ------------------------------------------------------------------------- *)
(** ** Exceptions and the handler monad *)

Inductive exn : Set :=
| HTTPException (status_code : Z) (detail : string)
| ValueError
| InvalidId
| StoreError.

(** The error kinds of the specification, as the responses the handlers
    raise for them. *)
Definition StorageUnavailableError : exn :=
  HTTPException 500 "Database not configured".
Definition NotFoundError : exn :=
  HTTPException 404 "Room not found".
Definition InvalidDateError : exn :=
  HTTPException 400 "Invalid date format, use YYYY-MM-DD".
Definition InvalidRangeError : exn :=
  HTTPException 400 "Check-out must be after check-in".
Definition ConflictError : exn :=
  HTTPException 400 "Selected dates overlap with an existing booking".

Inductive result (A : Type) : Type :=
| Ok (a : A)
| Raise (e : exn).
Arguments Ok {A} _.
Arguments Raise {A} _.

(** A handler runs on the global store and ends with a value or an
    exception, and the store it leaves. *)
Definition M (A : Type) : Type := world -> result A * world.

Definition ret {A : Type} (a : A) : M A := fun w => (Ok a, w).

Definition raise {A : Type} (e : exn) : M A := fun w => (Raise e, w).

Definition bind {A B : Type} (m : M A) (k : A -> M B) : M B :=
  fun w =>
    match m w with
    | (Ok a, w') => k a w'
    | (Raise e, w') => (Raise e, w')
    end.

(** The global [db]. *)
Definition get_db : M world := fun w => (Ok w, w).

(** [try: m  except ValueError: h]. *)
Definition except_ValueError {A : Type} (m : M A) (h : M A) : M A :=
  fun w =>
    match m w with
    | (Raise ValueError, w') => h w'
    | r => r
    end.

Declare Scope handler_scope.
Delimit Scope handler_scope with handler.
Notation "x <- m ;; k" := (bind m (fun x => k))
  (at level 61, m at next level, right associativity) : handler_scope.
Notation "' p <- m ;; k" := (bind m (fun x => match x with p => k end))
  (at level 61, p pattern, m at next level, right associativity) : handler_scope.
Notation "m ;; k" := (bind m (fun _ => k))
  (at level 61, right associativity) : handler_scope.
Open Scope handler_scope.

(** The store after it has created the booking document [d], and the
    identifier it gives to it. *)
Definition insert_one {lib : PyLib} (db : database) (d : BookingDoc.t) : database :=
  {| room := room db;
     booking := booking db ++ [mkstored (generate_id (inserted db)) d];
     inserted := S (inserted db) |}.

(** Modelled from the spec: [create_document] of the [database] module,
    which is not among the sources. The storage collaborator exposes
    [create(collection, document) -> id]: the document is added to the
    collection and the identifier assigned to it is returned. Only the
    [booking] collection is written by the handlers. *)
Definition create_document {lib : PyLib} (d : BookingDoc.t) : M string :=
  fun w =>
    match w with
    | None => (Raise StoreError, w)
    | Some db => (Ok (generate_id (inserted db)), Some (insert_one db d))
    end.

(* ------------------------------------------------------------------------- *)
(** ** The request handlers of [main.py] *)

(** The response of [POST /book]. *)
Record BookingResponse : Set := mkresponse {
  booking_id : string;
  total_price : number;
  status : string
}.

(** The response of [POST /availability/{hotel_id}]. *)
Record AvailabilityResponse : Set := mkavailable {
  available : list (serialized Room.t)
}.

Section Handlers.

Context {lib : PyLib}.

(** [datetime.fromisoformat(s).date()], raising [ValueError]. *)
Definition parse_date (s : string) : M date :=
  match fromisoformat s with
  | Some d => ret d
  | None => raise ValueError
  end.

(** [ObjectId(s)], raising [InvalidId]. *)
Definition parse_oid (s : string) : M oid :=
  match ObjectId s with
  | Some o => ret o
  | None => raise InvalidId
  end.

(** [if db is None: raise HTTPException(500, ...)], giving the store
    otherwise. *)
Definition require_db : M database :=
  w <- get_db ;;
  match w with
  | None => raise (HTTPException 500 "Database not configured")
  | Some db => ret db
  end.

(** *** [check_availability] *)

(** Lines 157-165: both strings are parsed and the range is checked inside
    the [try]; a [ValueError] becomes the 400 of the [except] clause, the
    [HTTPException] of the range check passes through it. *)
Definition parse_query (payload : AvailabilityQuery.t) : M (date * date) :=
  except_ValueError
    (ci <- parse_date (AvailabilityQuery.check_in payload) ;;
     co <- parse_date (AvailabilityQuery.check_out payload) ;;
     if (co <=? ci)%date
     then raise (HTTPException 400 "Check-out must be after check-in")
     else ret (ci, co))
    (raise (HTTPException 400 "Invalid date format, use YYYY-MM-DD")).

(** Lines 172-178: the loop over the bookings of one room; the value is the
    flag [overlap], and the scan stops at the first overlapping booking
    ([break]). *)
Fixpoint scan_overlap (ci co : date) (bookings : list (stored BookingDoc.t))
  : M bool :=
  match bookings with
  | [] => ret false
  | b :: rest =>
      b_ci <- parse_date (BookingDoc.check_in (doc b)) ;;
      b_co <- parse_date (BookingDoc.check_out (doc b)) ;;
      if overlaps ci co b_ci b_co then ret true
      else scan_overlap ci co rest
  end.

(** [room.get("capacity", 1)]. *)
Definition capacity_of (r : stored Room.t) : Z :=
  match Room.capacity (doc r) with
  | Some c => c
  | None => 1
  end.

(** Lines 170-180: the loop over the rooms, with the list
    [available_rooms] built so far; [db] is the store the handler found
    configured, which nothing writes during the request. *)
Fixpoint rooms_loop (db : database) (ci co : date) (guests : Z)
  (rooms : list (stored Room.t)) (available_rooms : list (serialized Room.t))
  : M (list (serialized Room.t)) :=
  match rooms with
  | [] => ret available_rooms
  | r :: rest =>
      let bookings := find_bookings_by_room db (_id r) in
      overlap <- scan_overlap ci co bookings ;;
      if negb overlap && (guests <=? capacity_of r)
      then rooms_loop db ci co guests rest (available_rooms ++ [serialize_doc r])
      else rooms_loop db ci co guests rest available_rooms
  end.

Definition check_availability (hotel_id : string)
  (payload : AvailabilityQuery.t) : M AvailabilityResponse :=
  db <- require_db ;;
  '(ci, co) <- parse_query payload ;;
  let rooms := find_rooms_by_hotel db hotel_id in
  available_rooms <-
    rooms_loop db ci co (AvailabilityQuery.guests payload) rooms [] ;;
  ret {| available := available_rooms |}.

(** *** [create_booking] *)

(** Lines 204-208: the loop over the bookings of the room; the first
    overlapping booking raises the 400. *)
Fixpoint reject_overlaps (ci co : date) (bookings : list (stored BookingDoc.t))
  : M unit :=
  match bookings with
  | [] => ret tt
  | b :: rest =>
      b_ci <- parse_date (BookingDoc.check_in (doc b)) ;;
      b_co <- parse_date (BookingDoc.check_out (doc b)) ;;
      if overlaps ci co b_ci b_co
      then raise (HTTPException 400
                    "Selected dates overlap with an existing booking")
      else reject_overlaps ci co rest
  end.

(** [room.get("price_per_night", 0)]. *)
Definition price_of (r : stored Room.t) : number :=
  match Room.price_per_night (doc r) with
  | Some p => p
  | None => PyInt 0
  end.

(** Lines 214-217: [payload.model_dump()] with the three keys [check_in],
    [check_out] and [total_price] assigned; every other key keeps the value
    of the payload. *)
Definition booking_doc (payload : Booking.t) (ci co : date) (total : number)
  : BookingDoc.t :=
  {| BookingDoc.hotel_id := Booking.hotel_id payload;
     BookingDoc.room_id := Booking.room_id payload;
     BookingDoc.guest_name := Booking.guest_name payload;
     BookingDoc.guest_email := Booking.guest_email payload;
     BookingDoc.check_in := isoformat ci;
     BookingDoc.check_out := isoformat co;
     BookingDoc.guests := Booking.guests payload;
     BookingDoc.total_price := total;
     BookingDoc.status := Booking.status payload |}.

(** The payload is a validated [Booking], whose [check_in] is a [date]: the
    branch [isinstance(ci, str)] of lines 199-202 is not taken. *)
Definition create_booking (payload : Booking.t) : M BookingResponse :=
  db <- require_db ;;
  o <- parse_oid (Booking.room_id payload) ;;
  match find_one_room db o with
  | None => raise (HTTPException 404 "Room not found")
  | Some r =>
      let bookings := find_bookings_by_room db (Booking.room_id payload) in
      let ci := Booking.check_in payload in
      let co := Booking.check_out payload in
      reject_overlaps ci co bookings ;;
      let nights := Date.sub_days co ci in
      let total := py_mul_int nights (price_of r) in
      bid <- create_document (booking_doc payload ci co total) ;;
      ret {| booking_id := bid; total_price := total; status := "confirmed" |}
  end.

End Handlers.

(* ------------------------------------------------------------------------- *)
(** ** A concrete runtime *)

(** The date-only ISO 8601 form [YYYY-MM-DD], which is what [isoformat]
    writes and what the HTTP boundary carries, and the 24 hexadecimal digits
    of an [ObjectId]. The handlers are run on this runtime in the examples;
    the theorems hold for every runtime. *)
Module Iso.

Definition digit_char (n : Z) : ascii := ascii_of_N (48 + Z.to_N n).

Definition digit_value (c : ascii) : option Z :=
  let n := Z.of_N (N_of_ascii c) in
  if (48 <=? n) && (n <=? 57) then Some (n - 48) else None.

(** ["%04d-%02d-%02d" % (year, month, day)]. *)
Definition isoformat (x : date) : string :=
  let y := Date.year x in
  let m := Date.month x in
  let d := Date.day x in
  string_of_list_ascii
    [digit_char (y / 1000 mod 10); digit_char (y / 100 mod 10);
     digit_char (y / 10 mod 10); digit_char (y mod 10); "-"%char;
     digit_char (m / 10 mod 10); digit_char (m mod 10); "-"%char;
     digit_char (d / 10 mod 10); digit_char (d mod 10)].

Definition number_of_digits (cs : list ascii) : option Z :=
  fold_left
    (fun acc c =>
       match acc, digit_value c with
       | Some a, Some v => Some (10 * a + v)
       | _, _ => None
       end)
    cs (Some 0).

(** The string must be four digits, a dash, two digits, a dash and two
    digits, and name a date that exists. A date followed by a time of day,
    which CPython reads too, is not read here. *)
Definition fromisoformat (s : string) : option date :=
  match list_ascii_of_string s with
  | [y1; y2; y3; y4; s1; m1; m2; s2; d1; d2] =>
      if Ascii.eqb s1 "-" && Ascii.eqb s2 "-" then
        match number_of_digits [y1; y2; y3; y4],
              number_of_digits [m1; m2],
              number_of_digits [d1; d2] with
        | Some y, Some m, Some d =>
            let x := mkdate y m d in
            if Date.valid x then Some x else None
        | _, _, _ => None
        end
      else None
  | _ => None
  end.

Definition hex_char (n : Z) : ascii :=
  if n <? 10 then ascii_of_N (48 + Z.to_N n) else ascii_of_N (87 + Z.to_N n).

(** The value of a hexadecimal digit, of either case. *)
Definition hex_value (c : ascii) : option Z :=
  let n := Z.of_N (N_of_ascii c) in
  if (48 <=? n) && (n <=? 57) then Some (n - 48)
  else if (97 <=? n) && (n <=? 102) then Some (n - 87)
  else if (65 <=? n) && (n <=? 70) then Some (n - 55)
  else None.

Fixpoint lower_hex (cs : list ascii) : option (list ascii) :=
  match cs with
  | [] => Some []
  | c :: rest =>
      match hex_value c, lower_hex rest with
      | Some v, Some l => Some (hex_char v :: l)
      | _, _ => None
      end
  end.

(** [str(ObjectId(s))]: [s] must be 24 hexadecimal digits, of either
    case; the string of the identifier is in lower case. The 24-character
    strings with blanks that [bytes.fromhex] accepts are not read here. *)
Definition ObjectId (s : string) : option oid :=
  let cs := list_ascii_of_string s in
  if (List.length cs =? 24)%nat then
    match lower_hex cs with
    | Some l => Some (string_of_list_ascii l)
    | None => None
    end
  else None.

Fixpoint hex_digits (k : nat) (n : Z) (acc : list ascii) : list ascii :=
  match k with
  | O => acc
  | S k' => hex_digits k' (n / 16) (hex_char (n mod 16) :: acc)
  end.

(** The n-th identifier: n in 24 hexadecimal digits. *)
Definition generate_id (n : nat) : oid :=
  string_of_list_ascii (hex_digits 24 (Z.of_nat n) []).

End Iso.

#[export] Instance iso_runtime : PyLib := {|
  fromisoformat := Iso.fromisoformat;
  isoformat := Iso.isoformat;
  ObjectId := Iso.ObjectId;
  generate_id := Iso.generate_id
|}.

(* ------------------------------------------------------------------------- *)
(** ** What a stored booking means to the two loops *)

Section StoredBookings.

Context {lib : PyLib}.

(** The range of a stored booking: its two ISO strings, when both parse. *)
Definition stored_range (b : stored BookingDoc.t) : option (date * date) :=
  match fromisoformat (BookingDoc.check_in (doc b)),
        fromisoformat (BookingDoc.check_out (doc b)) with
  | Some b_ci, Some b_co => Some (b_ci, b_co)
  | _, _ => None
  end.

(** Both dates of the stored booking parse. *)
Definition well_formed (b : stored BookingDoc.t) : bool :=
  match stored_range b with
  | Some _ => true
  | None => false
  end.

(** The stored booking has a range, and it overlaps [ci, co). *)
Definition conflictb (ci co : date) (b : stored BookingDoc.t) : bool :=
  match stored_range b with
  | Some (b_ci, b_co) => overlaps ci co b_ci b_co
  | None => false
  end.

(** The test of line 179 on a room, given the bookings found for it. *)
Definition accepted (db : database) (ci co : date) (guests : Z)
  (r : stored Room.t) : bool :=
  negb (existsb (conflictb ci co) (find_bookings_by_room db (_id r)))
  && (guests <=? capacity_of r).

(** The number of nights and the price line 211-212 compute for a request
    on the room [r]. *)
Definition nights (payload : Booking.t) : Z :=
  Date.sub_days (Booking.check_out payload) (Booking.check_in payload).

Definition total_for (payload : Booking.t) (r : stored Room.t) : number :=
  py_mul_int (nights payload) (price_of r).

(** The document a request on the room [r] hands to the store. *)
Definition document_for (payload : Booking.t) (r : stored Room.t)
  : BookingDoc.t :=
  booking_doc payload (Booking.check_in payload) (Booking.check_out payload)
    (total_for payload r).

(** The bookings the booking handler reads for a request. *)
Definition bookings_for (db : database) (payload : Booking.t)
  : list (stored BookingDoc.t) :=
  find_bookings_by_room db (Booking.room_id payload).

End StoredBookings.

(* ------------------------------------------------------------------------- *)
(** ** Sample data: the rooms of the seed route and a few requests *)

Module Sample.

Open Scope string_scope.

Definition seaside : string := "65a0000000000000000000a1".

Definition deluxe : stored Room.t :=
  mkstored "65a000000000000000000001"
    (Room.mk seaside "Deluxe Ocean View" (Some (PyFloat 320)) (Some 2)
       ["Balcony"; "King Bed"; "Mini Bar"] None).

Definition family : stored Room.t :=
  mkstored "65a000000000000000000002"
    (Room.mk seaside "Family Suite" (Some (PyFloat 450)) (Some 4)
       ["Two Bedrooms"; "Kitchenette"] None).

(** A booking of the deluxe room from 2024-01-10 to 2024-01-15. *)
Definition january (st : string) : stored BookingDoc.t :=
  mkstored "000000000000000000000000"
    (BookingDoc.mk seaside (_id deluxe) "Ann" "ann@example.org"
       "2024-01-10" "2024-01-15" 2 (PyFloat 1600) st).

Definition db_free : database :=
  {| room := [deluxe; family]; booking := []; inserted := 0 |}.

Definition db_january : database :=
  {| room := [deluxe; family]; booking := [january "confirmed"];
     inserted := 1 |}.


(** A request for the deluxe room by a client who sends the price [tp] and
    the status [st]. *)
Definition request (ci co : date) (tp : float) (st : string) : Booking.t :=
  Booking.mk seaside (_id deluxe) "Bob" "bob@example.org" ci co 2 tp st.

(** A query for [g] guests. *)
Definition query (ci co : string) (g : Z) : AvailabilityQuery.t :=
  AvailabilityQuery.mk ci co g.

(** The status of every stored booking, in order. *)
Definition stored_statuses (w : world) : option (list string) :=
  option_map (fun db => map (fun b => BookingDoc.status (doc b)) (booking db)) w.

Definition jan (n : Z) : date := mkdate 2024 1 n.
Definition feb (n : Z) : date := mkdate 2024 2 n.

(** The store once the request [req] has been booked on the room [r]. *)
Definition booked (db : database) (req : Booking.t) (r : stored Room.t)
  : world :=
  Some (insert_one (lib := iso_runtime) db
          (document_for (lib := iso_runtime) req r)).

(** The confirmation the handler sends with the price [total] for the
    booking the store numbers [n]. *)
Definition confirmation (n : nat) (total : number) : BookingResponse :=
  {| booking_id := Iso.generate_id n; total_price := total;
     status := "confirmed" |}.

End Sample.

(* ------------------------------------------------------------------------- *)
(** ** The other handlers of [main.py] *)

(** A document of the [hotel] collection ([schemas.Hotel]). *)
Module Hotel.
Record t : Set := mk {
  name : string;
  location : string;
  description : option string;
  rating : option float;
  amenities : list string;
  image_url : option string
}.
End Hotel.

(** The response of [GET /hotels/{hotel_id}]: the hotel and its rooms, both
    serialized. *)
Module HotelResponse.
Record t : Set := mk {
  hotel : serialized Hotel.t;
  rooms : list (serialized Room.t)
}.
End HotelResponse.

Section OtherHandlers.

Context {lib : PyLib}.

(** [db["hotel"].find_one({"_id": o})] on the documents [hotels] of the
    [hotel] collection. *)
Definition find_one_hotel (hotels : list (stored Hotel.t)) (o : oid)
  : option (stored Hotel.t) :=
  find (fun h => String.eqb (_id h) o) hotels.

(** [get_hotel] (lines 134-142). The [hotel] collection, which the two
    booking handlers never read, is the argument [hotels]; the rooms are read
    from the store. The hotel is looked up by [ObjectId(hotel_id)], the rooms
    by the string [hotel_id] itself. *)
Definition get_hotel (hotels : list (stored Hotel.t)) (hotel_id : string)
  : M HotelResponse.t :=
  db <- require_db ;;
  o <- parse_oid hotel_id ;;
  match find_one_hotel hotels o with
  | None => raise (HTTPException 404 "Hotel not found")
  | Some d =>
      let rooms := find_rooms_by_hotel db hotel_id in
      ret {| HotelResponse.hotel := serialize_doc d;
             HotelResponse.rooms := map serialize_doc rooms |}
  end.

(** Modelled from the spec: [get_documents] of the [database] module, which
    is not among the sources, on the [booking] collection. The storage
    collaborator exposes [find(collection, filter) -> list of documents];
    without a filter these are all the documents of the collection, in the
    order of insertion. *)
Definition get_documents : M (list (stored BookingDoc.t)) :=
  fun w =>
    match w with
    | None => (Raise StoreError, w)
    | Some db => (Ok (booking db), w)
    end.

(** [list_bookings] (lines 223-226). *)
Definition list_bookings : M (list (serialized BookingDoc.t)) :=
  items <- get_documents ;;
  ret (map serialize_doc items).

(** Two requests for the same stay: the same room and the same two dates,
    whatever the guests, the names, the price and the status they carry. *)
Definition same_stay (p p' : Booking.t) : Prop :=
  Booking.room_id p = Booking.room_id p' /\
  Booking.check_in p = Booking.check_in p' /\
  Booking.check_out p = Booking.check_out p'.

(** The runtime reads back the dates it writes, as Python does:
    [datetime.fromisoformat(d.isoformat()).date() == d]. *)
Definition reads_back_dates : Prop :=
  forall x : date, Date.valid x = true -> fromisoformat (isoformat x) = Some x.

End OtherHandlers.

(** More sample data: the hotel of the seed route, a store with a booking
    whose check-in is not an ISO date, and a few requests. *)
Module Demo.

Open Scope string_scope.

Definition seaside_resort : stored Hotel.t :=
  mkstored Sample.seaside
    (Hotel.mk "Seaside Resort" "Malibu, USA"
       (Some "Oceanfront stays with stunning sunsets.") (Some 0x1.2cccccccccccdp+2%float)
       ["Pool"; "WiFi"; "Breakfast"; "Spa"] None).

Definition hotels : list (stored Hotel.t) := [seaside_resort].

(** A booking of the family suite whose check-in was written by hand. *)
Definition handwritten : stored BookingDoc.t :=
  mkstored "000000000000000000000000"
    (BookingDoc.mk Sample.seaside (_id Sample.family) "Cy" "cy@example.org"
       "10/01/2024" "2024-01-15" 2 (PyFloat 2250) "confirmed").

Definition db_handwritten : database :=
  {| room := [Sample.deluxe; Sample.family]; booking := [handwritten];
     inserted := 1 |}.

(** A request for the deluxe room for [g] guests. *)
Definition request_for (g : Z) (ci co : date) : Booking.t :=
  Booking.mk Sample.seaside (_id Sample.deluxe) "Dee" "dee@example.org"
    ci co g 0 "confirmed".

(** The identifier of a room that is in no store. *)
Definition no_room : string := "65a0000000000000000000ff".

End Demo.

(* ------------------------------------------------------------------------- *)
(** * Properties *)

(** ** The order of dates *)

Section DateOrder.

Import Date.

Lemma _cmp_antisym (x y : date) : _cmp y x = CompOpp (_cmp x y).
Proof.
  unfold _cmp.
  rewrite (Z.compare_antisym (year x) (year y)).
  rewrite (Z.compare_antisym (month x) (month y)).
  rewrite (Z.compare_antisym (day x) (day y)).
  destruct (year x ?= year y); simpl; trivial.
  destruct (month x ?= month y); simpl; trivial.
Qed.

Lemma _cmp_refl (x : date) : _cmp x x = Eq.
Proof. unfold _cmp. now rewrite !Z.compare_refl. Qed.

Lemma _cmp_eq (x y : date) : _cmp x y = Eq -> x = y.
Proof.
  destruct x as [y1 m1 d1], y as [y2 m2 d2]. unfold _cmp; simpl.
  destruct (y1 ?= y2) eqn:Hy; try discriminate.
  destruct (m1 ?= m2) eqn:Hm; try discriminate.
  intros Hd.
  apply Z.compare_eq in Hy, Hm, Hd. congruence.
Qed.

Lemma geb_leb (x y : date) : (x >=? y)%date = (y <=? x)%date.
Proof. unfold geb, leb. rewrite (_cmp_antisym x y). now destruct (_cmp x y). Qed.

Lemma ltb_not_leb (x y : date) : (x <? y)%date = negb (y <=? x)%date.
Proof. unfold ltb, leb. rewrite (_cmp_antisym x y). now destruct (_cmp x y). Qed.

Lemma ltb_not_geb (x y : date) : (x <? y)%date = negb (x >=? y)%date.
Proof. unfold ltb, geb. now destruct (_cmp x y). Qed.

Lemma leb_refl (x : date) : (x <=? x)%date = true.
Proof. unfold leb. now rewrite _cmp_refl. Qed.

Lemma ltb_leb_incl (x y : date) : (x <? y)%date = true -> (x <=? y)%date = true.
Proof. unfold ltb, leb. now destruct (_cmp x y). Qed.

End DateOrder.

(** ** The overlap test *)

Lemma overlaps_ltb (a b c d : date) :
  overlaps a b c d = (a <? d)%date && (c <? b)%date.
Proof.
  unfold overlaps. rewrite negb_orb, (ltb_not_geb a d), (ltb_not_leb c b).
  apply andb_comm.
Qed.

(** C6: the overlap test is symmetric in the two ranges. *)
Theorem overlaps_symmetric (a b c d : date) :
  overlaps a b c d = overlaps c d a b.
Proof.
  unfold overlaps.
  rewrite (geb_leb a d), (geb_leb c b).
  now rewrite orb_comm.
Qed.

Lemma overlaps_adjacent (d1 d2 d3 : date) : overlaps d1 d2 d2 d3 = false.
Proof. unfold overlaps. now rewrite leb_refl. Qed.

Lemma overlaps_adjacent_after (d1 d2 d3 : date) : overlaps d2 d3 d1 d2 = false.
Proof. unfold overlaps. now rewrite geb_leb, leb_refl, orb_true_r. Qed.

(** ** The two loops over the bookings of a room *)

(** Case analysis on an integer the context bounds: [n] is [k], or [k + 1],
    and so on until the bounds are exhausted. *)
Ltac enumerate n k :=
  tryif (assert False by lia) then (exfalso; lia)
  else (destruct (Z.eq_dec n k) as [-> | ?];
        [ | let k' := eval compute in (k + 1) in enumerate n k' ]).

Ltac run :=
  unfold bind, parse_date, parse_oid, require_db, get_db, ret, raise; simpl.

Ltac parse_booking b :=
  unfold conflictb, well_formed, stored_range;
  destruct (fromisoformat (BookingDoc.check_in (doc b))) as [b_ci |];
  [ destruct (fromisoformat (BookingDoc.check_out (doc b))) as [b_co |] | ];
  simpl.

Section Loops.

Context {lib : PyLib}.

(** What the availability loop answers, and that it leaves the store
    alone. *)
Lemma scan_overlap_run (ci co : date) (bs : list (stored BookingDoc.t)) (w : world) :
  exists r, scan_overlap ci co bs w = (r, w) /\
    match r with
    | Ok true => existsb (conflictb ci co) bs = true
    | Ok false =>
        forallb well_formed bs = true /\ existsb (conflictb ci co) bs = false
    | Raise e => e = ValueError /\ forallb well_formed bs = false
    end.
Proof.
  induction bs as [| b rest IH]; simpl.
  - exists (Ok false). now split.
  - run. parse_booking b.
    + destruct (overlaps ci co b_ci b_co) eqn:Hov.
      * exists (Ok true). now split.
      * exact IH.
    + exists (Raise ValueError). now split.
    + exists (Raise ValueError). now split.
Qed.

Lemma scan_overlap_well_formed (ci co : date) (bs : list (stored BookingDoc.t)) (w : world) :
  forallb well_formed bs = true ->
  scan_overlap ci co bs w = (Ok (existsb (conflictb ci co) bs), w).
Proof.
  induction bs as [| b rest IH]; simpl; trivial.
  run. parse_booking b; try discriminate.
  intros Hwf. destruct (overlaps ci co b_ci b_co); auto.
Qed.

(** What the booking loop does, and that it leaves the store alone. *)
Lemma reject_overlaps_run (ci co : date) (bs : list (stored BookingDoc.t)) (w : world) :
  exists r, reject_overlaps ci co bs w = (r, w) /\
    match r with
    | Ok _ =>
        forallb well_formed bs = true /\ existsb (conflictb ci co) bs = false
    | Raise e =>
        (e = ConflictError /\ existsb (conflictb ci co) bs = true) \/
        (e = ValueError /\ forallb well_formed bs = false)
    end.
Proof.
  induction bs as [| b rest IH]; simpl.
  - exists (Ok tt). now split.
  - run. parse_booking b.
    + destruct (overlaps ci co b_ci b_co) eqn:Hov.
      * exists (Raise ConflictError). split; trivial. now left.
      * exact IH.
    + exists (Raise ValueError). split; trivial. now right.
    + exists (Raise ValueError). split; trivial. now right.
Qed.

Lemma reject_overlaps_well_formed (ci co : date) (bs : list (stored BookingDoc.t)) (w : world) :
  forallb well_formed bs = true ->
  reject_overlaps ci co bs w =
  (if existsb (conflictb ci co) bs then Raise ConflictError else Ok tt, w).
Proof.
  induction bs as [| b rest IH]; simpl; trivial.
  run. parse_booking b; try discriminate.
  intros Hwf. destruct (overlaps ci co b_ci b_co); auto.
Qed.

End Loops.

(** ** The overlap test in the two handlers *)

(** C1: for a candidate range [a,b) and an existing range [c,d), the overlap
    test of the two handlers is true exactly when it is not the case that
    b <= c or a >= d, which is the same as a < d and c < b; and on a stored
    booking whose range is [c,d) the loop of the availability handler
    answers this test and the loop of the booking handler raises the
    conflict error exactly when it is true. *)
Theorem overlaps_iff (a b c d : date) :
  (overlaps a b c d = true <->
   ~ ((b <=? c)%date = true \/ (a >=? d)%date = true)) /\
  (overlaps a b c d = true <->
   (a <? d)%date = true /\ (c <? b)%date = true) /\
  (forall (lib : PyLib) (existing : stored BookingDoc.t) (w : world),
     stored_range existing = Some (c, d) ->
     scan_overlap a b [existing] w = (Ok (overlaps a b c d), w) /\
     reject_overlaps a b [existing] w =
     (if overlaps a b c d then Raise ConflictError else Ok tt, w)).
Proof.
  split; [| split].
  - unfold overlaps. rewrite negb_true_iff, orb_false_iff. split.
    + intros [H1 H2] [H | H]; congruence.
    + intros H. split.
      * destruct (b <=? c)%date; trivial. exfalso; apply H; now left.
      * destruct (a >=? d)%date; trivial. exfalso; apply H; now right.
  - rewrite overlaps_ltb. apply andb_true_iff.
  - intros lib existing w Hrange.
    assert (Hwf : forallb well_formed [existing] = true).
    { simpl. unfold well_formed. now rewrite Hrange. }
    rewrite (scan_overlap_well_formed a b [existing] w Hwf).
    rewrite (reject_overlaps_well_formed a b [existing] w Hwf).
    simpl. unfold conflictb. rewrite Hrange, orb_false_r. now split.
Qed.

Lemma overlaps_iff_witness :
  scan_overlap (lib := iso_runtime) (Sample.jan 12) (Sample.jan 20) [Sample.january "confirmed"]
    (Some Sample.db_january) =
  (Ok (overlaps (Sample.jan 12) (Sample.jan 20) (Sample.jan 10) (Sample.jan 15)),
   Some Sample.db_january) /\
  reject_overlaps (lib := iso_runtime) (Sample.jan 12) (Sample.jan 20) [Sample.january "confirmed"]
    (Some Sample.db_january) =
  (if overlaps (Sample.jan 12) (Sample.jan 20) (Sample.jan 10) (Sample.jan 15)
   then Raise ConflictError else Ok tt, Some Sample.db_january).
Proof.
  apply (proj2 (proj2 (overlaps_iff (Sample.jan 12) (Sample.jan 20)
                         (Sample.jan 10) (Sample.jan 15)))
           iso_runtime (Sample.january "confirmed") (Some Sample.db_january)).
  vm_compute. reflexivity.
Defined.

(** ** The booking handler, case by case *)

Section BookingHandler.

Context {lib : PyLib}.

(** The handler on a configured store: the room identifier is parsed, the
    room is looked up, the bookings of the room are scanned, and only then
    the store is written. *)
Lemma create_booking_run (payload : Booking.t) (db : database) :
  create_booking payload (Some db) =
  match ObjectId (Booking.room_id payload) with
  | None => (Raise InvalidId, Some db)
  | Some o =>
      match find_one_room db o with
      | None => (Raise NotFoundError, Some db)
      | Some r =>
          match fst (reject_overlaps (Booking.check_in payload)
                       (Booking.check_out payload) (bookings_for db payload)
                       (Some db)) with
          | Raise e => (Raise e, Some db)
          | Ok _ =>
              (Ok {| booking_id := generate_id (inserted db);
                     total_price := total_for payload r;
                     status := "confirmed" |},
               Some (insert_one db (document_for payload r)))
          end
      end
  end.
Proof.
  unfold create_booking. run.
  destruct (ObjectId (Booking.room_id payload)) as [o |]; simpl; trivial.
  destruct (find_one_room db o) as [r |]; simpl; trivial.
  unfold bind, bookings_for.
  destruct (reject_overlaps_run (Booking.check_in payload)
              (Booking.check_out payload)
              (find_bookings_by_room db (Booking.room_id payload)) (Some db))
    as (res & -> & _).
  simpl. destruct res; reflexivity.
Qed.

Lemma create_booking_unconfigured (payload : Booking.t) :
  create_booking payload None = (Raise StorageUnavailableError, None).
Proof. reflexivity. Qed.

(** A request that fails leaves the store as it was. *)
Lemma create_booking_raise_unchanged (payload : Booking.t) (w w' : world) (e : exn) :
  create_booking payload w = (Raise e, w') -> w' = w.
Proof.
  destruct w as [db |].
  - rewrite create_booking_run.
    destruct (ObjectId _); [| now intros [= _ <-]].
    destruct (find_one_room db _); [| now intros [= _ <-]].
    destruct (fst _); [discriminate | now intros [= _ <-]].
  - rewrite create_booking_unconfigured. now intros [= _ <-].
Qed.

(** What a successful request has found and done. *)
Lemma create_booking_ok_inv (payload : Booking.t) (w w' : world) (resp : BookingResponse) :
  create_booking payload w = (Ok resp, w') ->
  exists db o r,
    w = Some db /\
    ObjectId (Booking.room_id payload) = Some o /\
    find_one_room db o = Some r /\
    forallb well_formed (bookings_for db payload) = true /\
    existsb (conflictb (Booking.check_in payload) (Booking.check_out payload))
      (bookings_for db payload) = false /\
    resp = {| booking_id := generate_id (inserted db);
              total_price := total_for payload r;
              status := "confirmed" |} /\
    w' = Some (insert_one db (document_for payload r)).
Proof.
  destruct w as [db |]; [| rewrite create_booking_unconfigured; discriminate].
  rewrite create_booking_run.
  destruct (ObjectId _) as [o |] eqn:Ho; [| discriminate].
  destruct (find_one_room db o) as [r |] eqn:Hr; [| discriminate].
  destruct (reject_overlaps_run (Booking.check_in payload)
              (Booking.check_out payload) (bookings_for db payload) (Some db))
    as (res & Hrun & Hres).
  rewrite Hrun. simpl. destruct res as [u | e]; [| discriminate].
  destruct Hres as [Hwf Hno]. intros [= <- <-].
  exists db, o, r. repeat split; trivial.
Qed.

(** The outcome when every stored booking of the room has a range. *)
Lemma create_booking_well_formed (payload : Booking.t) (db : database) (o : oid) (r : stored Room.t) :
  ObjectId (Booking.room_id payload) = Some o ->
  find_one_room db o = Some r ->
  forallb well_formed (bookings_for db payload) = true ->
  create_booking payload (Some db) =
  if existsb (conflictb (Booking.check_in payload) (Booking.check_out payload))
       (bookings_for db payload)
  then (Raise ConflictError, Some db)
  else (Ok {| booking_id := generate_id (inserted db);
              total_price := total_for payload r;
              status := "confirmed" |},
        Some (insert_one db (document_for payload r))).
Proof.
  intros Ho Hr Hwf. rewrite create_booking_run, Ho, Hr.
  rewrite (reject_overlaps_well_formed _ _ _ _ Hwf). simpl.
  now destruct (existsb _ _).
Qed.

(** The 400 of the booking loop is raised only for a stored booking of the
    room that overlaps the request. *)
Lemma create_booking_conflict_inv (payload : Booking.t) (w : world) :
  fst (create_booking payload w) = Raise ConflictError ->
  exists db, w = Some db /\
    existsb (conflictb (Booking.check_in payload) (Booking.check_out payload))
      (bookings_for db payload) = true.
Proof.
  destruct w as [db |]; [| rewrite create_booking_unconfigured; discriminate].
  rewrite create_booking_run.
  destruct (ObjectId _) as [o |]; [| discriminate].
  destruct (find_one_room db o) as [r |]; [| discriminate].
  destruct (reject_overlaps_run (Booking.check_in payload)
              (Booking.check_out payload) (bookings_for db payload) (Some db))
    as (res & Hrun & Hres).
  rewrite Hrun. simpl. destruct res as [u | e]; [discriminate |].
  simpl. intros [= ->]. exists db. split; trivial.
  destruct Hres as [[_ H] | [H _]]; [exact H | discriminate].
Qed.

(** With an overlapping stored booking of the room the request cannot
    succeed, whatever else the store holds. *)
Lemma create_booking_conflict_fails (payload : Booking.t) (db : database) (resp : BookingResponse) (w' : world) :
  existsb (conflictb (Booking.check_in payload) (Booking.check_out payload))
    (bookings_for db payload) = true ->
  create_booking payload (Some db) <> (Ok resp, w').
Proof.
  intros Hex Hrun. apply create_booking_ok_inv in Hrun.
  destruct Hrun as (db' & o & r & [= <-] & _ & _ & _ & Hno & _).
  congruence.
Qed.

End BookingHandler.

(** ** The availability handler, case by case *)

Section AvailabilityHandler.

Context {lib : PyLib}.

Lemma serialize_doc_inj {A : Type} (x y : stored A) :
  serialize_doc x = serialize_doc y -> x = y.
Proof. destruct x, y. unfold serialize_doc; simpl. now intros [= -> ->]. Qed.

Lemma in_serialized {A : Type} (x : stored A) (l : list (stored A)) :
  In (serialize_doc x) (map serialize_doc l) <-> In x l.
Proof.
  rewrite in_map_iff. split.
  - intros (y & Heq & Hin). apply serialize_doc_inj in Heq. now subst.
  - intros Hin. now exists x.
Qed.

(** The [try] block: the two strings are parsed in turn and the range is
    checked. *)
Lemma parse_query_run (q : AvailabilityQuery.t) (w : world) :
  parse_query q w =
  (match fromisoformat (AvailabilityQuery.check_in q) with
   | None => Raise InvalidDateError
   | Some ci =>
       match fromisoformat (AvailabilityQuery.check_out q) with
       | None => Raise InvalidDateError
       | Some co =>
           if (co <=? ci)%date then Raise InvalidRangeError else Ok (ci, co)
       end
   end, w).
Proof.
  unfold parse_query, except_ValueError. run.
  destruct (fromisoformat (AvailabilityQuery.check_in q)) as [ci |]; simpl; trivial.
  destruct (fromisoformat (AvailabilityQuery.check_out q)) as [co |]; simpl; trivial.
  now destruct (co <=? ci)%date.
Qed.

(** The loop over the rooms appends the rooms that pass the test of line
    179, in order, and can only fail on a stored date that does not parse. *)
Lemma rooms_loop_run (db : database) (ci co : date) (g : Z)
  (rooms : list (stored Room.t)) (acc : list (serialized Room.t)) (w : world) :
  exists res, rooms_loop db ci co g rooms acc w = (res, w) /\
    match res with
    | Ok l => l = acc ++ map serialize_doc (filter (accepted db ci co g) rooms)
    | Raise e => e = ValueError
    end.
Proof.
  revert acc. induction rooms as [| r rest IH]; intros acc; simpl.
  - exists (Ok acc). split; trivial. now rewrite app_nil_r.
  - unfold bind.
    destruct (scan_overlap_run ci co (find_bookings_by_room db (_id r)) w)
      as (res & -> & Hres).
    unfold accepted at 1.
    destruct res as [[|] | e]; simpl.
    + rewrite Hres. simpl. apply IH.
    + destruct Hres as [_ ->]. simpl.
      destruct (g <=? capacity_of r).
      * destruct (IH (acc ++ [serialize_doc r])) as (res & Hrun & Hres).
        exists res. split; trivial.
        destruct res; trivial. simpl. now rewrite Hres, <- app_assoc.
      * apply IH.
    + exists (Raise e). split; trivial. apply Hres.
Qed.

Lemma rooms_loop_well_formed (db : database) (ci co : date) (g : Z)
  (rooms : list (stored Room.t)) (acc : list (serialized Room.t)) (w : world) :
  (forall r, In r rooms ->
     forallb well_formed (find_bookings_by_room db (_id r)) = true) ->
  rooms_loop db ci co g rooms acc w =
  (Ok (acc ++ map serialize_doc (filter (accepted db ci co g) rooms)), w).
Proof.
  revert acc. induction rooms as [| r rest IH]; intros acc Hwf; simpl.
  - now rewrite app_nil_r.
  - unfold bind. rewrite scan_overlap_well_formed by (apply Hwf; now left).
    change (negb (existsb (conflictb ci co) (find_bookings_by_room db (_id r)))
            && (g <=? capacity_of r)) with (accepted db ci co g r).
    destruct (accepted db ci co g r); simpl.
    + rewrite IH by (intros; apply Hwf; now right). now rewrite <- app_assoc.
    + apply IH. intros; apply Hwf; now right.
Qed.

(** What a successful query has parsed and answered. *)
Lemma check_availability_ok_inv (hotel : string) (q : AvailabilityQuery.t)
  (w w' : world) (resp : AvailabilityResponse) :
  check_availability hotel q w = (Ok resp, w') ->
  exists db ci co,
    w = Some db /\ w' = w /\
    fromisoformat (AvailabilityQuery.check_in q) = Some ci /\
    fromisoformat (AvailabilityQuery.check_out q) = Some co /\
    (co <=? ci)%date = false /\
    available resp =
    map serialize_doc
      (filter (accepted db ci co (AvailabilityQuery.guests q))
         (find_rooms_by_hotel db hotel)).
Proof.
  unfold check_availability. destruct w as [db |]; [| discriminate].
  run. unfold bind. rewrite parse_query_run.
  destruct (fromisoformat (AvailabilityQuery.check_in q)) as [ci |]; [| discriminate].
  destruct (fromisoformat (AvailabilityQuery.check_out q)) as [co |]; [| discriminate].
  destruct (co <=? ci)%date eqn:Hrange; [discriminate |].
  destruct (rooms_loop_run db ci co (AvailabilityQuery.guests q)
              (find_rooms_by_hotel db hotel) [] (Some db))
    as (res & -> & Hres).
  destruct res as [l | e]; [| discriminate].
  intros [= <- <-]. exists db, ci, co. simpl. now subst l.
Qed.

(** The query answers when the store is configured, the two dates parse
    and are in order, and the stored bookings of the rooms have ranges. *)
Lemma check_availability_well_formed (hotel : string) (q : AvailabilityQuery.t)
  (db : database) (ci co : date) :
  fromisoformat (AvailabilityQuery.check_in q) = Some ci ->
  fromisoformat (AvailabilityQuery.check_out q) = Some co ->
  (co <=? ci)%date = false ->
  (forall r, In r (find_rooms_by_hotel db hotel) ->
     forallb well_formed (find_bookings_by_room db (_id r)) = true) ->
  check_availability hotel q (Some db) =
  (Ok {| available :=
           map serialize_doc
             (filter (accepted db ci co (AvailabilityQuery.guests q))
                (find_rooms_by_hotel db hotel)) |}, Some db).
Proof.
  intros Hci Hco Hrange Hwf. unfold check_availability. run. unfold bind.
  rewrite parse_query_run, Hci, Hco, Hrange.
  now rewrite rooms_loop_well_formed.
Qed.

(** A query on an empty or reversed range is refused. *)
Lemma check_availability_invalid_range (hotel : string) (q : AvailabilityQuery.t)
  (db : database) (ci co : date) :
  fromisoformat (AvailabilityQuery.check_in q) = Some ci ->
  fromisoformat (AvailabilityQuery.check_out q) = Some co ->
  (co <=? ci)%date = true ->
  check_availability hotel q (Some db) = (Raise InvalidRangeError, Some db).
Proof.
  intros Hci Hco Hrange. unfold check_availability. run. unfold bind.
  now rewrite parse_query_run, Hci, Hco, Hrange.
Qed.

End AvailabilityHandler.

(** ** Back-to-back stays *)

(** C7: for dates d1 < d2 < d3 the ranges [d1,d2) and [d2,d3) do not
    overlap, in either order of the two; with the deluxe room booked from
    2024-01-10 to 2024-01-15, a request for 2024-01-15 to 2024-01-18 is
    booked, and a request for 2024-01-12 to 2024-01-20 is refused with the
    conflict error and leaves the store as it was. *)
Theorem back_to_back_stays :
  (forall d1 d2 d3 : date,
     (d1 <? d2)%date = true -> (d2 <? d3)%date = true ->
     overlaps d1 d2 d2 d3 = false /\ overlaps d2 d3 d1 d2 = false) /\
  (let adjacent := Sample.request (Sample.jan 15) (Sample.jan 18) 0 "confirmed" in
   create_booking (lib := iso_runtime) adjacent (Some Sample.db_january) =
   (Ok (Sample.confirmation 1 (PyFloat 960)),
    Sample.booked Sample.db_january adjacent Sample.deluxe)) /\
  (let overlapping := Sample.request (Sample.jan 12) (Sample.jan 20) 0 "confirmed" in
   create_booking (lib := iso_runtime) overlapping (Some Sample.db_january) =
   (Raise ConflictError, Some Sample.db_january)).
Proof.
  split; [| split].
  - intros d1 d2 d3 _ _. split.
    + apply overlaps_adjacent.
    + apply overlaps_adjacent_after.
  - vm_compute. reflexivity.
  - vm_compute. reflexivity.
Qed.

Lemma back_to_back_stays_witness :
  overlaps (Sample.jan 10) (Sample.jan 15) (Sample.jan 15) (Sample.jan 18) = false /\
  overlaps (Sample.jan 15) (Sample.jan 18) (Sample.jan 10) (Sample.jan 15) = false.
Proof.
  apply (proj1 back_to_back_stays (Sample.jan 10) (Sample.jan 15) (Sample.jan 18));
    reflexivity.
Defined.

(** ** The price of a booking *)

Lemma total_for_price (payload : Booking.t) (r : stored Room.t) :
  (forall p, Room.price_per_night (doc r) = Some p ->
     total_for payload r = py_mul_int (nights payload) p) /\
  (Room.price_per_night (doc r) = None -> total_for payload r = PyInt 0).
Proof.
  unfold total_for, price_of. split.
  - now intros p ->.
  - intros ->. simpl. now rewrite Z.mul_0_r.
Qed.

(** C3: a booking that succeeds answers the price [(check_out -
    check_in).days * price_per_night] for the room it found (0 stands for a
    missing price); three nights from 2024-02-01 to 2024-02-04 at 320 a
    night cost 960, as an [int] or as a [float] price, and that is what
    the handler answers for the deluxe room. *)
Theorem total_price_is_nights_times_price :
  (forall (lib : PyLib) (payload : Booking.t) (w w' : world) (resp : BookingResponse),
     create_booking payload w = (Ok resp, w') ->
     exists db o r,
       w = Some db /\
       ObjectId (Booking.room_id payload) = Some o /\
       find_one_room db o = Some r /\
       total_price resp =
       py_mul_int
         (Date.sub_days (Booking.check_out payload) (Booking.check_in payload))
         (price_of r) /\
       (forall p, Room.price_per_night (doc r) = Some p ->
          total_price resp =
          py_mul_int
            (Date.sub_days (Booking.check_out payload) (Booking.check_in payload))
            p)) /\
  Date.sub_days (Sample.feb 4) (Sample.feb 1) = 3 /\
  py_mul_int (Date.sub_days (Sample.feb 4) (Sample.feb 1)) (PyInt 320) = PyInt 960 /\
  py_mul_int (Date.sub_days (Sample.feb 4) (Sample.feb 1)) (PyFloat 320) = PyFloat 960 /\
  py_num_eqb (PyFloat 960) (PyInt 960) = true /\
  fst (create_booking (lib := iso_runtime)
         (Sample.request (Sample.feb 1) (Sample.feb 4) 0 "confirmed")
         (Some Sample.db_free)) =
  Ok (Sample.confirmation 0 (PyFloat 960)).
Proof.
  split; [| repeat split; vm_compute; reflexivity].
  intros lib payload w w' resp Hrun.
  apply create_booking_ok_inv in Hrun.
  destruct Hrun as (db & o & r & Hw & Ho & Hr & _ & _ & -> & _).
  exists db, o, r. repeat split; trivial.
  intros p Hp. apply (proj1 (total_for_price payload r) p Hp).
Qed.

Lemma total_price_is_nights_times_price_witness :
  exists db o r,
    Some Sample.db_free = Some db /\
    ObjectId (Booking.room_id (Sample.request (Sample.feb 1) (Sample.feb 4) 0 "confirmed")) = Some o /\
    find_one_room db o = Some r /\
    total_price (Sample.confirmation 0 (PyFloat 960)) =
    py_mul_int (Date.sub_days (Sample.feb 4) (Sample.feb 1)) (price_of r) /\
    (forall p, Room.price_per_night (doc r) = Some p ->
       total_price (Sample.confirmation 0 (PyFloat 960)) =
       py_mul_int (Date.sub_days (Sample.feb 4) (Sample.feb 1)) p).
Proof.
  apply (proj1 total_price_is_nights_times_price iso_runtime
           (Sample.request (Sample.feb 1) (Sample.feb 4) 0 "confirmed")
           (Some Sample.db_free)
           (Sample.booked Sample.db_free
              (Sample.request (Sample.feb 1) (Sample.feb 4) 0 "confirmed")
              Sample.deluxe)
           (Sample.confirmation 0 (PyFloat 960))).
  vm_compute. reflexivity.
Defined.

(** ** The client's price and status *)

Lemma booking_doc_with_total_price {lib : PyLib} (payload : Booking.t)
  (tp : float) (ci co : date) (total : number) :
  booking_doc (Booking.with_total_price payload tp) ci co total =
  booking_doc payload ci co total.
Proof. reflexivity. Qed.

(** C9: the handler does not read the [total_price] of the payload: with
    any other value in its place the outcome and the store are the same;
    and a booking that succeeds stores, as the last document of the
    collection, the dump of the payload with the price the handler
    computed, which is also the price it answers. *)
Theorem client_total_price_has_no_influence :
  (forall (lib : PyLib) (payload : Booking.t) (tp : float) (w : world),
     create_booking (Booking.with_total_price payload tp) w =
     create_booking payload w) /\
  (forall (lib : PyLib) (payload : Booking.t) (w w' : world) (resp : BookingResponse),
     create_booking payload w = (Ok resp, w') ->
     exists db o r stored_doc,
       w = Some db /\
       ObjectId (Booking.room_id payload) = Some o /\
       find_one_room db o = Some r /\
       w' = Some {| room := room db;
                    booking := booking db ++ [mkstored (booking_id resp) stored_doc];
                    inserted := S (inserted db) |} /\
       BookingDoc.total_price stored_doc =
       py_mul_int (nights payload) (price_of r) /\
       total_price resp = py_mul_int (nights payload) (price_of r)).
Proof.
  split.
  - intros lib payload tp w. reflexivity.
  - intros lib payload w w' resp Hrun.
    apply create_booking_ok_inv in Hrun.
    destruct Hrun as (db & o & r & Hw & Ho & Hr & _ & _ & -> & ->).
    exists db, o, r, (document_for payload r). repeat split; trivial.
Qed.

Lemma client_total_price_has_no_influence_witness :
  exists db o r stored_doc,
    Some Sample.db_free = Some db /\
    ObjectId (Booking.room_id (Sample.request (Sample.feb 1) (Sample.feb 4) 5 "confirmed")) = Some o /\
    find_one_room db o = Some r /\
    Sample.booked Sample.db_free
      (Sample.request (Sample.feb 1) (Sample.feb 4) 5 "confirmed")
      Sample.deluxe =
    Some {| room := room db;
            booking := booking db ++
              [mkstored (booking_id (Sample.confirmation 0 (PyFloat 960))) stored_doc];
            inserted := S (inserted db) |} /\
    BookingDoc.total_price stored_doc =
    py_mul_int (nights (Sample.request (Sample.feb 1) (Sample.feb 4) 5 "confirmed"))
      (price_of r) /\
    total_price (Sample.confirmation 0 (PyFloat 960)) =
    py_mul_int (nights (Sample.request (Sample.feb 1) (Sample.feb 4) 5 "confirmed"))
      (price_of r).
Proof.
  apply (proj2 client_total_price_has_no_influence iso_runtime
           (Sample.request (Sample.feb 1) (Sample.feb 4) 5 "confirmed")
           (Some Sample.db_free)).
  vm_compute. reflexivity.
Defined.

Lemma create_booking_stores_status {lib : PyLib} (payload : Booking.t)
  (w w' : world) (resp : BookingResponse) :
  create_booking payload w = (Ok resp, w') ->
  status resp = "confirmed"%string /\
  exists db stored_doc,
    w = Some db /\
    w' = Some {| room := room db;
                 booking := booking db ++ [mkstored (booking_id resp) stored_doc];
                 inserted := S (inserted db) |} /\
    BookingDoc.status stored_doc = Booking.status payload.
Proof.
  intros Hrun. apply create_booking_ok_inv in Hrun.
  destruct Hrun as (db & o & r & Hw & _ & _ & _ & _ & -> & ->).
  split; trivial. now exists db, (document_for payload r).
Qed.

(** C8, as the code has it: a request that carries the status "cancelled"
    passes the schema and is booked, the confirmation says "confirmed", and
    the document the store keeps has the status "cancelled" of the
    payload. *)
Theorem client_status_is_stored :
  let req := Sample.request (Sample.feb 1) (Sample.feb 4) 0 "cancelled" in
  let run := create_booking (lib := iso_runtime) req (Some Sample.db_free) in
  Booking.valid req = true /\
  fst run = Ok (Sample.confirmation 0 (PyFloat 960)) /\
  status (Sample.confirmation 0 (PyFloat 960)) = "confirmed"%string /\
  snd run = Sample.booked Sample.db_free req Sample.deluxe /\
  Sample.stored_statuses (snd run) = Some ["cancelled"%string].
Proof. repeat split; vm_compute; reflexivity. Qed.

(** ** Empty and reversed ranges *)

Lemma create_booking_raises {lib : PyLib} (payload : Booking.t) (w : world) (e : exn) :
  fst (create_booking payload w) = Raise e ->
  e = StorageUnavailableError \/ e = InvalidId \/ e = NotFoundError \/
  e = ConflictError \/ e = ValueError.
Proof.
  destruct w as [db |].
  - rewrite create_booking_run.
    destruct (ObjectId _) as [o |]; [| simpl; intros [= <-]; auto].
    destruct (find_one_room db o) as [r |]; [| simpl; intros [= <-]; auto].
    destruct (reject_overlaps_run (Booking.check_in payload)
                (Booking.check_out payload) (bookings_for db payload) (Some db))
      as (res & -> & Hres).
    simpl. destruct res as [u | e']; simpl; [discriminate |].
    intros [= <-]. destruct Hres as [[-> _] | [-> _]]; auto.
  - simpl. intros [= <-]. auto.
Qed.

(** C2, as the code has it: the booking handler has no check of the range.
    On the deluxe room with no booking, a request whose two dates are the
    same day passes the schema, is booked for the price 0 and stored, and
    so is a request whose check-out is two days before its check-in, for a
    negative price; no request at all is answered with the range error,
    which only the availability handler raises. *)
Theorem zero_night_booking_is_accepted :
  (let same_day := Sample.request (Sample.jan 20) (Sample.jan 20) 0 "confirmed" in
   Booking.valid same_day = true /\
   create_booking (lib := iso_runtime) same_day (Some Sample.db_free) =
   (Ok (Sample.confirmation 0 (PyFloat 0)),
    Sample.booked Sample.db_free same_day Sample.deluxe)) /\
  (let reversed := Sample.request (Sample.jan 20) (Sample.jan 18) 0 "confirmed" in
   create_booking (lib := iso_runtime) reversed (Some Sample.db_free) =
   (Ok (Sample.confirmation 0 (PyFloat (-640))),
    Sample.booked Sample.db_free reversed Sample.deluxe)) /\
  (forall (lib : PyLib) (payload : Booking.t) (w : world),
     fst (create_booking payload w) <> Raise InvalidRangeError) /\
  check_availability (lib := iso_runtime) Sample.seaside
    (Sample.query "2024-01-20" "2024-01-20" 2) (Some Sample.db_free) =
  (Raise InvalidRangeError, Some Sample.db_free).
Proof.
  split; [| split; [| split]].
  - split; vm_compute; reflexivity.
  - vm_compute. reflexivity.
  - intros lib payload w Hraise.
    apply create_booking_raises in Hraise.
    destruct Hraise as [H | [H | [H | [H | H]]]]; discriminate H.
  - vm_compute. reflexivity.
Qed.

(** ** Conflicts in the booking handler *)

Lemma existsb_in {A : Type} (f : A -> bool) (l : list A) (x : A) :
  In x l -> f x = true -> existsb f l = true.
Proof. intros Hin Hf. apply existsb_exists. now exists x. Qed.

Lemma existsb_none {A : Type} (f : A -> bool) (l : list A) :
  (forall x, In x l -> f x = false) -> existsb f l = false.
Proof.
  intros Hall. destruct (existsb f l) eqn:Hex; trivial.
  apply existsb_exists in Hex. destruct Hex as (x & Hin & Hf).
  rewrite (Hall x Hin) in Hf. discriminate.
Qed.

(** What the booking loop does with the bookings it is given, which are the
    stored bookings whose [room_id] is the string of the request: a request
    that fails leaves the store as it was; when the store is configured, the
    room is found and these bookings have ranges, one of them that overlaps
    the request makes the handler fail with the conflict error, with the
    store unchanged; with such a booking the request never succeeds; and
    when none of them overlaps the request, the conflict error is not
    raised. *)
Theorem overlapping_booking_is_rejected {lib : PyLib} (payload : Booking.t) (w : world) :
  (forall e w', create_booking payload w = (Raise e, w') -> w' = w) /\
  (forall db o r b,
     w = Some db ->
     ObjectId (Booking.room_id payload) = Some o ->
     find_one_room db o = Some r ->
     forallb well_formed (bookings_for db payload) = true ->
     In b (bookings_for db payload) ->
     conflictb (Booking.check_in payload) (Booking.check_out payload) b = true ->
     create_booking payload w = (Raise ConflictError, w)) /\
  (forall db b resp w',
     w = Some db ->
     In b (bookings_for db payload) ->
     conflictb (Booking.check_in payload) (Booking.check_out payload) b = true ->
     create_booking payload w <> (Ok resp, w')) /\
  ((forall db b,
      w = Some db ->
      In b (bookings_for db payload) ->
      conflictb (Booking.check_in payload) (Booking.check_out payload) b = false) ->
   fst (create_booking payload w) <> Raise ConflictError).
Proof.
  split; [| split; [| split]].
  - intros e w'. apply create_booking_raise_unchanged.
  - intros db o r b -> Ho Hr Hwf Hin Hb.
    rewrite (create_booking_well_formed payload db o r Ho Hr Hwf).
    now rewrite (existsb_in _ _ b Hin Hb).
  - intros db b resp w' -> Hin Hb.
    apply create_booking_conflict_fails. now apply (existsb_in _ _ b).
  - intros Hnone Hraise.
    apply create_booking_conflict_inv in Hraise.
    destruct Hraise as (db & -> & Hex).
    rewrite existsb_none in Hex; [discriminate |].
    intros b. now apply Hnone.
Qed.

Lemma overlapping_booking_is_rejected_witness :
  (let overlapping := Sample.request (Sample.jan 12) (Sample.jan 20) 0 "confirmed" in
   create_booking (lib := iso_runtime) overlapping (Some Sample.db_january) =
   (Raise ConflictError, Some Sample.db_january) /\
   create_booking (lib := iso_runtime) overlapping (Some Sample.db_january) <>
   (Ok (Sample.confirmation 1 (PyFloat 2560)), Some Sample.db_january)) /\
  fst (create_booking (lib := iso_runtime)
         (Sample.request (Sample.jan 15) (Sample.jan 18) 0 "confirmed")
         (Some Sample.db_january)) <> Raise ConflictError.
Proof.
  split; [split |].
  - apply (proj1 (proj2 (overlapping_booking_is_rejected
             (Sample.request (Sample.jan 12) (Sample.jan 20) 0 "confirmed")
             (Some Sample.db_january)))
             Sample.db_january (_id Sample.deluxe) Sample.deluxe
             (Sample.january "confirmed")).
    + reflexivity.
    + vm_compute. reflexivity.
    + vm_compute. reflexivity.
    + vm_compute. reflexivity.
    + vm_compute. left. reflexivity.
    + vm_compute. reflexivity.
  - apply (proj1 (proj2 (proj2 (overlapping_booking_is_rejected
             (Sample.request (Sample.jan 12) (Sample.jan 20) 0 "confirmed")
             (Some Sample.db_january))))
             Sample.db_january (Sample.january "confirmed")).
    + reflexivity.
    + vm_compute. left. reflexivity.
    + vm_compute. reflexivity.
  - apply (proj2 (proj2 (proj2 (overlapping_booking_is_rejected
             (Sample.request (Sample.jan 15) (Sample.jan 18) 0 "confirmed")
             (Some Sample.db_january))))).
    intros db b [= <-] Hin.
    vm_compute in Hin. destruct Hin as [<- | []].
    vm_compute. reflexivity.
Defined.

(** C4, as the code has it: the room of a request is found through
    [ObjectId(room_id)], but the bookings checked are those stored under the
    string [room_id] itself (lines 191 and 196). With the deluxe room booked
    from 2024-01-10 to 2024-01-15 under its own identifier, a request for
    2024-01-12 to 2024-01-20 that writes the identifier of the room in upper
    case passes the schema and resolves to the deluxe room, whose stored
    booking overlaps it; yet no conflict error is raised: the request is
    confirmed for 2560.0 and stored. The same request with the identifier
    as the store writes it is refused with the conflict error, and the
    availability handler, which reads the bookings under the identifier of
    the room document (line 171), does not offer the room for these
    dates. *)
Theorem respelled_room_id_is_double_booked :
  let upper :=
    Booking.mk Sample.seaside "65A000000000000000000001" "Eve"
      "eve@example.org" (Sample.jan 12) (Sample.jan 20) 2 0 "confirmed" in
  let lower := Sample.request (Sample.jan 12) (Sample.jan 20) 0 "confirmed" in
  Booking.valid upper = true /\
  @ObjectId iso_runtime (Booking.room_id upper) = Some (_id Sample.deluxe) /\
  find_one_room Sample.db_january (_id Sample.deluxe) = Some Sample.deluxe /\
  In (Sample.january "confirmed") (booking Sample.db_january) /\
  BookingDoc.room_id (doc (Sample.january "confirmed")) = _id Sample.deluxe /\
  conflictb (lib := iso_runtime) (Booking.check_in upper)
    (Booking.check_out upper) (Sample.january "confirmed") = true /\
  create_booking (lib := iso_runtime) upper (Some Sample.db_january) =
  (Ok (Sample.confirmation 1 (PyFloat 2560)),
   Sample.booked Sample.db_january upper Sample.deluxe) /\
  create_booking (lib := iso_runtime) lower (Some Sample.db_january) =
  (Raise ConflictError, Some Sample.db_january) /\
  check_availability (lib := iso_runtime) Sample.seaside
    (Sample.query "2024-01-12" "2024-01-20" 2) (Some Sample.db_january) =
  (Ok {| available := [serialize_doc Sample.family] |},
   Some Sample.db_january).
Proof.
  repeat split; try (vm_compute; reflexivity).
  simpl. left. reflexivity.
Qed.

(** ** Availability *)

Lemma accepted_iff {lib : PyLib} (db : database) (ci co : date) (g : Z) (r : stored Room.t) :
  accepted db ci co g r = true <->
  g <= capacity_of r /\
  forall b, In b (find_bookings_by_room db (_id r)) -> conflictb ci co b = false.
Proof.
  unfold accepted. rewrite andb_true_iff, negb_true_iff, Z.leb_le. split.
  - intros [Hno Hcap]. split; trivial. intros b Hin.
    destruct (conflictb ci co b) eqn:Hb; trivial.
    now rewrite (existsb_in _ _ b Hin Hb) in Hno.
  - intros [Hcap Hno]. split; trivial. now apply existsb_none.
Qed.

(** C5: in the answer of an availability query, a room whose capacity (1
    when the room has none) is below the number of guests is absent,
    whatever the two dates are; and a room is in the answer exactly when it
    is a room of the hotel, the guests fit its capacity, and no stored
    booking of the room overlaps the range asked for. *)
Theorem availability_requires_capacity {lib : PyLib} (hotel : string)
  (q : AvailabilityQuery.t) (w w' : world) (resp : AvailabilityResponse) :
  check_availability hotel q w = (Ok resp, w') ->
  exists db ci co,
    w = Some db /\
    fromisoformat (AvailabilityQuery.check_in q) = Some ci /\
    fromisoformat (AvailabilityQuery.check_out q) = Some co /\
    forall r : stored Room.t,
      (capacity_of r < AvailabilityQuery.guests q ->
       ~ In (serialize_doc r) (available resp)) /\
      (In (serialize_doc r) (available resp) <->
       In r (find_rooms_by_hotel db hotel) /\
       AvailabilityQuery.guests q <= capacity_of r /\
       forall b, In b (find_bookings_by_room db (_id r)) ->
                 conflictb ci co b = false).
Proof.
  intros Hrun. apply check_availability_ok_inv in Hrun.
  destruct Hrun as (db & ci & co & Hw & _ & Hci & Hco & _ & Havail).
  exists db, ci, co. repeat split; trivial.
  - rewrite Havail, in_serialized, filter_In, accepted_iff. lia.
  - rewrite Havail, in_serialized, filter_In in H. tauto.
  - rewrite Havail, in_serialized, filter_In, accepted_iff in H. tauto.
  - rewrite Havail, in_serialized, filter_In, accepted_iff in H. apply H.
  - intros (Hin & Hcap & Hno).
    rewrite Havail, in_serialized, filter_In, accepted_iff. tauto.
Qed.

Lemma availability_requires_capacity_witness :
  ~ In (serialize_doc Sample.deluxe) [serialize_doc Sample.family] /\
  In (serialize_doc Sample.family) [serialize_doc Sample.family].
Proof.
  destruct (availability_requires_capacity Sample.seaside
              (Sample.query "2024-01-12" "2024-01-13" 3)
              (Some Sample.db_free) (Some Sample.db_free)
              {| available := [serialize_doc Sample.family] |})
    as (db & ci & co & _ & _ & _ & Hrooms).
  - vm_compute. reflexivity.
  - split.
    + apply (proj1 (Hrooms Sample.deluxe)). vm_compute. reflexivity.
    + simpl. left. reflexivity.
Defined.

(** ** Cancelled bookings *)




(** ** The concrete runtime writes dates it can read *)

Module IsoFacts.

Import Iso.

Lemma digit_value_digit_char (n : Z) :
  0 <= n < 10 -> digit_value (digit_char n) = Some n.
Proof.
  intros Hn. enumerate n 0; reflexivity.
Qed.

Lemma number_of_two_digits (n : Z) :
  0 <= n < 100 ->
  number_of_digits [digit_char (n / 10 mod 10); digit_char (n mod 10)] = Some n.
Proof.
  intros Hn. unfold number_of_digits. cbn [fold_left].
  rewrite !digit_value_digit_char by (apply Z.mod_pos_bound; lia).
  f_equal. Z.div_mod_to_equations. lia.
Qed.

Lemma number_of_four_digits (n : Z) :
  0 <= n < 10000 ->
  number_of_digits
    [digit_char (n / 1000 mod 10); digit_char (n / 100 mod 10);
     digit_char (n / 10 mod 10); digit_char (n mod 10)] = Some n.
Proof.
  intros Hn. unfold number_of_digits. cbn [fold_left].
  rewrite !digit_value_digit_char by (apply Z.mod_pos_bound; lia).
  f_equal.
  Z.div_mod_to_equations. lia.
Qed.

Lemma days_in_month_bound (y m : Z) : Date._days_in_month y m <= 31.
Proof.
  unfold Date._days_in_month, Date._DAYS_IN_MONTH.
  destruct ((m =? 2) && Date._is_leap y); [lia |].
  destruct m as [| p | p]; try lia.
  do 4 (try destruct p as [p | p |]; try lia).
Qed.

Lemma valid_bounds (x : date) :
  Date.valid x = true ->
  1 <= Date.year x <= 9999 /\ 1 <= Date.month x <= 12 /\ 1 <= Date.day x <= 31.
Proof.
  unfold Date.valid. rewrite !andb_true_iff, !Z.leb_le.
  pose proof (days_in_month_bound (Date.year x) (Date.month x)). lia.
Qed.

(** A date written by [isoformat] is read back by [fromisoformat]. *)
Lemma fromisoformat_isoformat (x : date) :
  Date.valid x = true -> fromisoformat (isoformat x) = Some x.
Proof.
  intros Hvalid. destruct (valid_bounds x Hvalid) as (Hy & Hm & Hd).
  unfold fromisoformat, isoformat.
  rewrite list_ascii_of_string_of_list_ascii.
  cbn [Ascii.eqb Bool.eqb andb].
  rewrite number_of_four_digits, !number_of_two_digits by lia.
  destruct x as [y m d]. simpl in *. now rewrite Hvalid.
Qed.

(** [fromisoformat] only gives dates that exist. *)
Lemma fromisoformat_valid (s : string) (x : date) :
  fromisoformat s = Some x -> Date.valid x = true.
Proof.
  unfold fromisoformat.
  destruct (list_ascii_of_string s) as [| y1 [| y2 [| y3 [| y4 [| s1 [| m1
    [| m2 [| s2 [| d1 [| d2 [| c rest]]]]]]]]]]]; try discriminate.
  destruct (Ascii.eqb s1 "-" && Ascii.eqb s2 "-"); [| discriminate].
  destruct (number_of_digits [y1; y2; y3; y4]) as [y |]; [| discriminate].
  destruct (number_of_digits [m1; m2]) as [m |]; [| discriminate].
  destruct (number_of_digits [d1; d2]) as [d |]; [| discriminate].
  destruct (Date.valid (mkdate y m d)) eqn:Hvalid; [| discriminate].
  now intros [= <-].
Qed.

End IsoFacts.

(** ** Stored bookings keep their ranges *)

(** On a runtime that reads back the dates it writes, a booking made for
    two dates that exist is stored with its range, so the bookings of a
    store filled by the booking handler all have ranges. *)
Lemma create_booking_keeps_well_formed {lib : PyLib} (payload : Booking.t)
  (db db' : database) (resp : BookingResponse) :
  (forall x, Date.valid x = true -> fromisoformat (isoformat x) = Some x) ->
  Date.valid (Booking.check_in payload) = true ->
  Date.valid (Booking.check_out payload) = true ->
  forallb well_formed (booking db) = true ->
  create_booking payload (Some db) = (Ok resp, Some db') ->
  forallb well_formed (booking db') = true /\
  exists stored_doc,
    booking db' = booking db ++ [stored_doc] /\
    stored_range stored_doc =
    Some (Booking.check_in payload, Booking.check_out payload).
Proof.
  intros Hread Hci Hco Hwf Hrun.
  apply create_booking_ok_inv in Hrun.
  destruct Hrun as (db0 & o & r & [= <-] & _ & _ & _ & _ & _ & [= ->]).
  assert (Hrange : stored_range
                     (mkstored (generate_id (inserted db)) (document_for payload r)) =
                   Some (Booking.check_in payload, Booking.check_out payload)).
  { unfold stored_range. simpl. now rewrite (Hread _ Hci), (Hread _ Hco). }
  split.
  - simpl. rewrite forallb_app, Hwf. simpl.
    unfold well_formed. now rewrite Hrange.
  - eexists. split; [reflexivity | exact Hrange].
Qed.

Lemma create_booking_keeps_well_formed_iso (payload : Booking.t)
  (db db' : database) (resp : BookingResponse) :
  Date.valid (Booking.check_in payload) = true ->
  Date.valid (Booking.check_out payload) = true ->
  forallb well_formed (booking db) = true ->
  create_booking payload (Some db) = (Ok resp, Some db') ->
  forallb well_formed (booking db') = true.
Proof.
  intros Hci Hco Hwf Hrun.
  apply (create_booking_keeps_well_formed (lib := iso_runtime) payload db db'
           resp IsoFacts.fromisoformat_isoformat Hci Hco Hwf Hrun).
Qed.

(** ** The order of dates is the order of their ordinals *)

Module DateFacts.

Import Date.

Ltac tables :=
  cbv beta iota delta
    [_DAYS_IN_MONTH _DAYS_BEFORE_MONTH Z.eqb Z.ltb Z.compare Pos.compare
     Pos.compare_cont Pos.eqb andb].

(** A later year starts after the earlier year has ended. *)
Lemma days_before_year_mono (y1 y2 : Z) :
  y1 < y2 ->
  _days_before_year y1 + 365 + (if _is_leap y1 then 1 else 0)
  <= _days_before_year y2.
Proof.
  intros Hlt. unfold _days_before_year, _is_leap.
  destruct (Z.eqb_spec (y1 mod 4) 0), (Z.eqb_spec (y1 mod 100) 0),
    (Z.eqb_spec (y1 mod 400) 0); simpl;
    Z.div_mod_to_equations; lia.
Qed.

(** The day of the year of a date lies within its year. *)
Lemma day_of_year_bounds (y m d : Z) :
  1 <= m <= 12 -> 1 <= d <= _days_in_month y m ->
  1 <= _days_before_month y m + d <= 365 + (if _is_leap y then 1 else 0).
Proof.
  intros Hm. unfold _days_in_month, _days_before_month.
  enumerate m 1; destruct (_is_leap y); tables; lia.
Qed.

(** In one year, a day of an earlier month comes before every day of a
    later month. *)
Lemma days_before_month_mono (y m1 m2 d1 d2 : Z) :
  1 <= m1 <= 12 -> 1 <= m2 <= 12 -> m1 < m2 ->
  d1 <= _days_in_month y m1 -> 1 <= d2 ->
  _days_before_month y m1 + d1 < _days_before_month y m2 + d2.
Proof.
  intros Hm1 Hm2 Hlt. unfold _days_in_month, _days_before_month.
  enumerate m1 1; enumerate m2 1; destruct (_is_leap y); tables; lia.
Qed.

Lemma valid_inv (x : date) :
  valid x = true ->
  1 <= month x <= 12 /\ 1 <= day x <= _days_in_month (year x) (month x).
Proof. unfold valid. rewrite !andb_true_iff, !Z.leb_le. lia. Qed.

(** On dates that exist, the comparison of the tuples is the comparison of
    the ordinals. *)
Lemma _cmp_toordinal (x y : date) :
  valid x = true -> valid y = true ->
  _cmp x y = (toordinal x ?= toordinal y).
Proof.
  intros Hx Hy.
  apply valid_inv in Hx, Hy. destruct Hx as [Hmx Hdx], Hy as [Hmy Hdy].
  destruct x as [y1 m1 d1], y as [y2 m2 d2].
  unfold _cmp, toordinal, _ymd2ord; simpl in *.
  pose proof (day_of_year_bounds y1 m1 d1 Hmx Hdx) as Hb1.
  pose proof (day_of_year_bounds y2 m2 d2 Hmy Hdy) as Hb2.
  symmetry.
  destruct (Z.compare_spec y1 y2) as [-> | Hlt | Hgt].
  - destruct (Z.compare_spec m1 m2) as [-> | Hlt | Hgt].
    + destruct (Z.compare_spec d1 d2) as [-> | Hlt | Hgt].
      * apply Z.compare_refl.
      * apply Z.compare_lt_iff. lia.
      * apply Z.compare_gt_iff. lia.
    + apply Z.compare_lt_iff.
      pose proof (days_before_month_mono y2 m1 m2 d1 d2). lia.
    + apply Z.compare_gt_iff.
      pose proof (days_before_month_mono y2 m2 m1 d2 d1). lia.
  - apply Z.compare_lt_iff.
    pose proof (days_before_year_mono y1 y2 Hlt). lia.
  - apply Z.compare_gt_iff.
    pose proof (days_before_year_mono y2 y1 Hgt). lia.
Qed.

(** The nights of a stay between two dates that exist are positive exactly
    when the check-out is after the check-in, and none when the two are the
    same day. *)
Lemma sub_days_positive (ci co : date) :
  valid ci = true -> valid co = true ->
  ((ci <? co)%date = true <-> 0 < sub_days co ci) /\
  ((co <=? ci)%date = true <-> sub_days co ci <= 0) /\
  (sub_days co ci = 0 <-> co = ci).
Proof.
  intros Hci Hco. unfold ltb, leb, sub_days.
  pose proof (_cmp_eq co ci) as Heq.
  rewrite (_cmp_toordinal ci co Hci Hco).
  rewrite (_cmp_toordinal co ci Hco Hci) in *.
  destruct (Z.compare_spec (toordinal ci) (toordinal co));
    destruct (Z.compare_spec (toordinal co) (toordinal ci));
    repeat split; intros; try lia; try discriminate; try (subst; lia); auto.
Qed.

End DateFacts.

(* ------------------------------------------------------------------------- *)
(** * Further properties of the handlers *)

(** ** The availability handler: validation, failures and the answer *)

Section AvailabilityMore.

Context {lib : PyLib}.

(** The handler on a configured store, step by step. *)
Lemma check_availability_run (h : string) (q : AvailabilityQuery.t) (db : database) :
  check_availability h q (Some db) =
  match fromisoformat (AvailabilityQuery.check_in q) with
  | None => (Raise InvalidDateError, Some db)
  | Some ci =>
      match fromisoformat (AvailabilityQuery.check_out q) with
      | None => (Raise InvalidDateError, Some db)
      | Some co =>
          if (co <=? ci)%date then (Raise InvalidRangeError, Some db)
          else
            match fst (rooms_loop db ci co (AvailabilityQuery.guests q)
                         (find_rooms_by_hotel db h) [] (Some db)) with
            | Ok l => (Ok {| available := l |}, Some db)
            | Raise e => (Raise e, Some db)
            end
      end
  end.
Proof.
  unfold check_availability. run. unfold bind. rewrite parse_query_run.
  destruct (fromisoformat (AvailabilityQuery.check_in q)) as [ci |]; trivial.
  destruct (fromisoformat (AvailabilityQuery.check_out q)) as [co |]; trivial.
  destruct (co <=? ci)%date; trivial.
  destruct (rooms_loop_run db ci co (AvailabilityQuery.guests q)
              (find_rooms_by_hotel db h) [] (Some db)) as (res & -> & _).
  simpl. now destruct res.
Qed.

(** The loop over the rooms: when it ends, every room without an
    overlapping booking had all its bookings read; when it fails, some room
    has a stored date that does not parse. *)
Lemma rooms_loop_cases (db : database) (ci co : date) (g : Z)
  (rs : list (stored Room.t)) (acc : list (serialized Room.t)) (w : world) :
  match fst (rooms_loop db ci co g rs acc w) with
  | Ok l =>
      l = acc ++ map serialize_doc (filter (accepted db ci co g) rs) /\
      forall r, In r rs ->
        existsb (conflictb ci co) (find_bookings_by_room db (_id r)) = false ->
        forallb well_formed (find_bookings_by_room db (_id r)) = true
  | Raise e =>
      e = ValueError /\
      exists r, In r rs /\
        forallb well_formed (find_bookings_by_room db (_id r)) = false
  end.
Proof.
  revert acc. induction rs as [| r rest IH]; intros acc; simpl.
  - split; [now rewrite app_nil_r | intros r []].
  - unfold bind.
    destruct (scan_overlap_run ci co (find_bookings_by_room db (_id r)) w)
      as (res & -> & Hres).
    change (negb (existsb (conflictb ci co) (find_bookings_by_room db (_id r)))
            && (g <=? capacity_of r)) with (accepted db ci co g r).
    unfold accepted at 1.
    destruct res as [[|] | e]; simpl.
    + specialize (IH acc). rewrite Hres. simpl.
      destruct (fst (rooms_loop db ci co g rest acc w)) as [l | e].
      * destruct IH as [-> Hscan]. split; trivial.
        intros r' [<- | Hin] Hno; [congruence | now apply Hscan].
      * destruct IH as [-> (r' & Hin & Hbad)]. split; trivial.
        exists r'. split; [now right | trivial].
    + destruct Hres as [Hwf Hno]. rewrite Hno. simpl.
      destruct (g <=? capacity_of r).
      * specialize (IH (acc ++ [serialize_doc r])).
        destruct (fst (rooms_loop db ci co g rest (acc ++ [serialize_doc r]) w))
          as [l | e].
        -- destruct IH as [-> Hscan]. split; [now rewrite <- app_assoc |].
           intros r' [<- | Hin] Hno'; [trivial | now apply Hscan].
        -- destruct IH as [-> (r' & Hin & Hbad)]. split; trivial.
           exists r'. split; [now right | trivial].
      * specialize (IH acc).
        destruct (fst (rooms_loop db ci co g rest acc w)) as [l | e].
        -- destruct IH as [-> Hscan]. split; trivial.
           intros r' [<- | Hin] Hno'; [trivial | now apply Hscan].
        -- destruct IH as [-> (r' & Hin & Hbad)]. split; trivial.
           exists r'. split; [now right | trivial].
    + destruct Hres as [-> Hbad]. split; trivial.
      exists r. split; [now left | trivial].
Qed.

End AvailabilityMore.

(** X1: an availability query never writes: whatever the hotel, the query
    and the store, and whether it answers or fails, the store is left as it
    was. *)
Theorem check_availability_leaves_store {lib : PyLib} (h : string)
  (q : AvailabilityQuery.t) (w : world) :
  snd (check_availability h q w) = w.
Proof.
  destruct w as [db |]; [| reflexivity].
  rewrite check_availability_run.
  destruct (fromisoformat (AvailabilityQuery.check_in q)) as [ci |]; trivial.
  destruct (fromisoformat (AvailabilityQuery.check_out q)) as [co |]; trivial.
  destruct (co <=? ci)%date; trivial.
  now destruct (fst _).
Qed.

(** X2: the order of the checks of an availability query. Without a store
    the answer is the 500 "Database not configured", whatever the query
    holds; with a store, a check-in or a check-out that does not parse gives
    the 400 "Invalid date format", and two dates that parse with the
    check-out not after the check-in give the 400 "Check-out must be after
    check-in", whatever rooms and bookings the store holds. *)
Theorem check_availability_validation {lib : PyLib} (h : string)
  (q : AvailabilityQuery.t) :
  check_availability h q None = (Raise StorageUnavailableError, None) /\
  (forall db,
     fromisoformat (AvailabilityQuery.check_in q) = None ->
     check_availability h q (Some db) = (Raise InvalidDateError, Some db)) /\
  (forall db,
     fromisoformat (AvailabilityQuery.check_out q) = None ->
     check_availability h q (Some db) = (Raise InvalidDateError, Some db)) /\
  (forall db ci co,
     fromisoformat (AvailabilityQuery.check_in q) = Some ci ->
     fromisoformat (AvailabilityQuery.check_out q) = Some co ->
     (co <=? ci)%date = true ->
     check_availability h q (Some db) = (Raise InvalidRangeError, Some db)).
Proof.
  split; [reflexivity |]. repeat split.
  - intros db Hci. now rewrite check_availability_run, Hci.
  - intros db Hco. rewrite check_availability_run, Hco.
    now destruct (fromisoformat (AvailabilityQuery.check_in q)).
  - intros db ci co Hci Hco Hrange.
    now rewrite check_availability_run, Hci, Hco, Hrange.
Qed.

Lemma check_availability_validation_witness :
  check_availability (lib := iso_runtime) Sample.seaside
    (Sample.query "20 January" "2024-01-22" 2) (Some Demo.db_handwritten) =
  (Raise InvalidDateError, Some Demo.db_handwritten) /\
  check_availability (lib := iso_runtime) Sample.seaside
    (Sample.query "2024-01-20" "2024-02-30" 2) (Some Demo.db_handwritten) =
  (Raise InvalidDateError, Some Demo.db_handwritten) /\
  check_availability (lib := iso_runtime) Sample.seaside
    (Sample.query "2024-01-20" "2024-01-18" 2) (Some Demo.db_handwritten) =
  (Raise InvalidRangeError, Some Demo.db_handwritten).
Proof.
  split; [| split].
  - apply (proj1 (proj2 (check_availability_validation Sample.seaside
             (Sample.query "20 January" "2024-01-22" 2)))).
    vm_compute. reflexivity.
  - apply (proj1 (proj2 (proj2 (check_availability_validation Sample.seaside
             (Sample.query "2024-01-20" "2024-02-30" 2))))).
    vm_compute. reflexivity.
  - apply (proj2 (proj2 (proj2 (check_availability_validation Sample.seaside
             (Sample.query "2024-01-20" "2024-01-18" 2))))
             Demo.db_handwritten (Sample.jan 20) (Sample.jan 18));
      vm_compute; reflexivity.
Defined.

(** X3: once the store is there and the range is valid, an availability
    query either answers the rooms of the hotel that pass the test of line
    179, in the order of the store, or fails with a [ValueError] that the
    handler does not catch, and then some room of the hotel has a stored
    booking whose dates do not parse; it answers whenever the stored
    bookings of the rooms of the hotel all parse. *)
Theorem check_availability_after_validation {lib : PyLib} (h : string)
  (q : AvailabilityQuery.t) (db : database) (ci co : date) :
  fromisoformat (AvailabilityQuery.check_in q) = Some ci ->
  fromisoformat (AvailabilityQuery.check_out q) = Some co ->
  (co <=? ci)%date = false ->
  (check_availability h q (Some db) =
   (Ok {| available :=
            map serialize_doc
              (filter (accepted db ci co (AvailabilityQuery.guests q))
                 (find_rooms_by_hotel db h)) |}, Some db) \/
   check_availability h q (Some db) = (Raise ValueError, Some db) /\
   exists r, In r (find_rooms_by_hotel db h) /\
     forallb well_formed (find_bookings_by_room db (_id r)) = false) /\
  ((forall r, In r (find_rooms_by_hotel db h) ->
      forallb well_formed (find_bookings_by_room db (_id r)) = true) ->
   check_availability h q (Some db) =
   (Ok {| available :=
            map serialize_doc
              (filter (accepted db ci co (AvailabilityQuery.guests q))
                 (find_rooms_by_hotel db h)) |}, Some db)).
Proof.
  intros Hci Hco Hrange. split.
  - rewrite check_availability_run, Hci, Hco, Hrange.
    pose proof (rooms_loop_cases db ci co (AvailabilityQuery.guests q)
                  (find_rooms_by_hotel db h) [] (Some db)) as Hloop.
    destruct (fst _) as [l | e].
    + left. destruct Hloop as [-> _]. reflexivity.
    + right. destruct Hloop as [-> Hbad]. now split.
  - now apply check_availability_well_formed.
Qed.

Lemma check_availability_after_validation_witness :
  (check_availability (lib := iso_runtime) Sample.seaside
     (Sample.query "2024-01-12" "2024-01-14" 2) (Some Demo.db_handwritten) =
   (Ok {| available :=
            map serialize_doc
              (filter (accepted Demo.db_handwritten (Sample.jan 12)
                         (Sample.jan 14) 2)
                 (find_rooms_by_hotel Demo.db_handwritten Sample.seaside)) |},
    Some Demo.db_handwritten) \/
   check_availability (lib := iso_runtime) Sample.seaside
     (Sample.query "2024-01-12" "2024-01-14" 2) (Some Demo.db_handwritten) =
   (Raise ValueError, Some Demo.db_handwritten) /\
   exists r, In r (find_rooms_by_hotel Demo.db_handwritten Sample.seaside) /\
     forallb well_formed (find_bookings_by_room Demo.db_handwritten (_id r)) =
     false) /\
  check_availability (lib := iso_runtime) Sample.seaside
    (Sample.query "2024-01-12" "2024-01-14" 2) (Some Sample.db_january) =
  (Ok {| available :=
           map serialize_doc
             (filter (accepted Sample.db_january (Sample.jan 12)
                        (Sample.jan 14) 2)
                (find_rooms_by_hotel Sample.db_january Sample.seaside)) |},
   Some Sample.db_january).
Proof.
  split.
  - destruct (check_availability_after_validation (lib := iso_runtime)
                Sample.seaside (Sample.query "2024-01-12" "2024-01-14" 2)
                Demo.db_handwritten (Sample.jan 12) (Sample.jan 14))
      as [Hcases _]; [vm_compute; reflexivity .. | exact Hcases].
  - destruct (check_availability_after_validation (lib := iso_runtime)
                Sample.seaside (Sample.query "2024-01-12" "2024-01-14" 2)
                Sample.db_january (Sample.jan 12) (Sample.jan 14))
      as [_ Hanswers]; [vm_compute; reflexivity .. |].
    apply Hanswers. intros r Hin. vm_compute in Hin.
    destruct Hin as [<- | [<- | []]]; vm_compute; reflexivity.
Defined.

(** ** Availability is monotone in the guests and in the range *)

Ltac compare_fields :=
  repeat match goal with
         | |- context [?x ?= ?y] =>
             destruct (Z.compare_spec x y); try (exfalso; lia); try subst
         end.

Lemma leb_ltb_trans (a b c : date) :
  (a <=? b)%date = true -> (b <? c)%date = true -> (a <? c)%date = true.
Proof.
  destruct a as [y1 m1 d1], b as [y2 m2 d2], c as [y3 m3 d3].
  unfold Date.leb, Date.ltb, Date._cmp; simpl.
  compare_fields; intros; try discriminate; try reflexivity; lia.
Qed.

Lemma ltb_leb_trans (a b c : date) :
  (a <? b)%date = true -> (b <=? c)%date = true -> (a <? c)%date = true.
Proof.
  destruct a as [y1 m1 d1], b as [y2 m2 d2], c as [y3 m3 d3].
  unfold Date.leb, Date.ltb, Date._cmp; simpl.
  compare_fields; intros; try discriminate; try reflexivity; lia.
Qed.

(** An overlap with a stay is an overlap with every stay that contains
    it. *)
Lemma overlaps_wider (ci co ci' co' x y : date) :
  (ci <=? ci')%date = true -> (co' <=? co)%date = true ->
  overlaps ci' co' x y = true -> overlaps ci co x y = true.
Proof.
  intros Hci Hco. rewrite !overlaps_ltb, !andb_true_iff.
  intros [H1 H2]. split.
  - now apply (leb_ltb_trans ci ci' y).
  - now apply (ltb_leb_trans x co' co).
Qed.

Section Monotone.

Context {lib : PyLib}.

Lemma conflictb_wider (ci co ci' co' : date) (b : stored BookingDoc.t) :
  (ci <=? ci')%date = true -> (co' <=? co)%date = true ->
  conflictb ci' co' b = true -> conflictb ci co b = true.
Proof.
  intros Hci Hco. unfold conflictb.
  destruct (stored_range b) as [[x y] |]; [| discriminate].
  now apply overlaps_wider.
Qed.

Lemma accepted_fewer_guests (db : database) (ci co : date) (g g' : Z) (r : stored Room.t) :
  g <= g' -> accepted db ci co g' r = true -> accepted db ci co g r = true.
Proof.
  intros Hg. rewrite !accepted_iff. intros [Hcap Hno]. split; [lia | trivial].
Qed.

Lemma accepted_shorter_stay (db : database) (ci co ci' co' : date) (g : Z) (r : stored Room.t) :
  (ci <=? ci')%date = true -> (co' <=? co)%date = true ->
  accepted db ci co g r = true -> accepted db ci' co' g r = true.
Proof.
  intros Hci Hco. rewrite !accepted_iff. intros [Hcap Hno]. split; trivial.
  intros b Hin. destruct (conflictb ci' co' b) eqn:Hb; trivial.
  apply (conflictb_wider ci co ci' co' b Hci Hco) in Hb.
  now rewrite (Hno b Hin) in Hb.
Qed.

(** Whether the loop over the rooms ends does not depend on the guests. *)
Lemma rooms_loop_any_guests (db : database) (ci co : date) (g g' : Z)
  (rs : list (stored Room.t)) (acc acc' : list (serialized Room.t)) (w : world) :
  (exists l, fst (rooms_loop db ci co g rs acc w) = Ok l) ->
  exists l', fst (rooms_loop db ci co g' rs acc' w) = Ok l'.
Proof.
  revert acc acc'. induction rs as [| r rest IH]; intros acc acc'; simpl.
  - intros _. now exists acc'.
  - unfold bind.
    destruct (scan_overlap_run ci co (find_bookings_by_room db (_id r)) w)
      as (res & -> & _).
    destruct res as [overlap | e]; simpl.
    + destruct (negb overlap && (g <=? capacity_of r));
        destruct (negb overlap && (g' <=? capacity_of r)); apply IH.
    + intros [l Hl]. discriminate.
Qed.

End Monotone.

Lemma in_serialized_filter {A : Type} (f g : stored A -> bool)
  (l : list (stored A)) (x : serialized A) :
  (forall r, In r l -> f r = true -> g r = true) ->
  In x (map serialize_doc (filter f l)) -> In x (map serialize_doc (filter g l)).
Proof.
  intros Hfg. rewrite !in_map_iff.
  intros (r & <- & Hin). apply filter_In in Hin. destruct Hin as [Hin Hf].
  exists r. split; trivial. apply filter_In. split; auto.
Qed.

(** X5: asking for fewer guests never loses a room. When a query for g'
    guests is answered, the query for the same dates and g <= g' guests is
    answered as well, and every room of the first answer is in the second. *)
Theorem fewer_guests_more_rooms {lib : PyLib} (h ci_s co_s : string)
  (g g' : Z) (w w' : world) (resp' : AvailabilityResponse) :
  g <= g' ->
  check_availability h (AvailabilityQuery.mk ci_s co_s g') w = (Ok resp', w') ->
  exists resp,
    check_availability h (AvailabilityQuery.mk ci_s co_s g) w = (Ok resp, w) /\
    forall x, In x (available resp') -> In x (available resp).
Proof.
  intros Hg Hrun. destruct w as [db |]; [| discriminate].
  rewrite check_availability_run in Hrun.
  rewrite check_availability_run. simpl in *.
  destruct (fromisoformat ci_s) as [ci |]; [| discriminate].
  destruct (fromisoformat co_s) as [co |]; [| discriminate].
  destruct (co <=? ci)%date; [discriminate |].
  pose proof (rooms_loop_cases db ci co g' (find_rooms_by_hotel db h) []
                (Some db)) as Hloop'.
  pose proof (rooms_loop_cases db ci co g (find_rooms_by_hotel db h) []
                (Some db)) as Hloop.
  destruct (fst (rooms_loop db ci co g' _ _ _)) as [l' | e'] eqn:Hl';
    [| discriminate].
  destruct (rooms_loop_any_guests db ci co g' g (find_rooms_by_hotel db h)
              [] [] (Some db)) as [l Hl]; [now exists l' |].
  rewrite Hl in *. injection Hrun as <- _.
  eexists. split; [reflexivity |]. simpl.
  destruct Hloop as [-> _], Hloop' as [-> _]. simpl.
  intros x. apply in_serialized_filter.
  intros r _. now apply accepted_fewer_guests.
Qed.

Lemma fewer_guests_more_rooms_witness :
  exists resp,
    check_availability (lib := iso_runtime) Sample.seaside
      (AvailabilityQuery.mk "2024-01-16" "2024-01-18" 2)
      (Some Sample.db_january) = (Ok resp, Some Sample.db_january) /\
    forall x, In x [serialize_doc Sample.family] -> In x (available resp).
Proof.
  apply (fewer_guests_more_rooms (lib := iso_runtime) Sample.seaside
           "2024-01-16" "2024-01-18" 2 3 (Some Sample.db_january)
           (Some Sample.db_january)
           {| available := [serialize_doc Sample.family] |}).
  - lia.
  - vm_compute. reflexivity.
Defined.

(** X6: a room free for a stay is free for every stay within it. When two
    queries for the same guests are answered, the second for a range inside
    the range of the first, every room of the first answer is in the
    second. *)
Theorem shorter_stay_still_available {lib : PyLib} (h : string)
  (q q' : AvailabilityQuery.t) (w w1 w2 : world)
  (resp resp' : AvailabilityResponse) (ci co ci' co' : date) :
  fromisoformat (AvailabilityQuery.check_in q) = Some ci ->
  fromisoformat (AvailabilityQuery.check_out q) = Some co ->
  fromisoformat (AvailabilityQuery.check_in q') = Some ci' ->
  fromisoformat (AvailabilityQuery.check_out q') = Some co' ->
  AvailabilityQuery.guests q' = AvailabilityQuery.guests q ->
  (ci <=? ci')%date = true ->
  (co' <=? co)%date = true ->
  check_availability h q w = (Ok resp, w1) ->
  check_availability h q' w = (Ok resp', w2) ->
  forall x, In x (available resp) -> In x (available resp').
Proof.
  intros Hci Hco Hci' Hco' Hg Hle1 Hle2 Hrun Hrun'.
  apply check_availability_ok_inv in Hrun, Hrun'.
  destruct Hrun as (db & a & b & -> & _ & Ha & Hb & _ & ->).
  destruct Hrun' as (db' & a' & b' & [= <-] & _ & Ha' & Hb' & _ & ->).
  rewrite Hci in Ha. rewrite Hco in Hb. rewrite Hci' in Ha'. rewrite Hco' in Hb'.
  injection Ha as <-. injection Hb as <-. injection Ha' as <-. injection Hb' as <-.
  rewrite Hg. intros x. apply in_serialized_filter.
  intros r _. now apply accepted_shorter_stay.
Qed.

Lemma shorter_stay_still_available_witness :
  In (serialize_doc Sample.family)
    [serialize_doc Sample.deluxe; serialize_doc Sample.family].
Proof.
  apply (shorter_stay_still_available (lib := iso_runtime) Sample.seaside
           (Sample.query "2024-01-12" "2024-01-25" 2)
           (Sample.query "2024-01-16" "2024-01-18" 2)
           (Some Sample.db_january) (Some Sample.db_january)
           (Some Sample.db_january)
           {| available := [serialize_doc Sample.family] |}
           {| available := [serialize_doc Sample.deluxe; serialize_doc Sample.family] |}
           (Sample.jan 12) (Sample.jan 25) (Sample.jan 16) (Sample.jan 18)
           eq_refl eq_refl eq_refl eq_refl eq_refl eq_refl eq_refl
           eq_refl eq_refl (serialize_doc Sample.family)).
  simpl. left. reflexivity.
Defined.

(** ** The booking handler: order of the checks and what it reads *)

(** X7: the order of the checks of a booking request. Without a store the
    answer is the 500 "Database not configured"; with a store, a room
    identifier that is not an [ObjectId] raises [InvalidId], which the
    handler does not catch, before any lookup; and an identifier that names
    no room gives the 404 "Room not found", whatever bookings the store
    holds. In the three cases the store is left as it was. *)
Theorem create_booking_checks_in_order {lib : PyLib} (payload : Booking.t) :
  create_booking payload None = (Raise StorageUnavailableError, None) /\
  (forall db,
     ObjectId (Booking.room_id payload) = None ->
     create_booking payload (Some db) = (Raise InvalidId, Some db)) /\
  (forall db o,
     ObjectId (Booking.room_id payload) = Some o ->
     find_one_room db o = None ->
     create_booking payload (Some db) = (Raise NotFoundError, Some db)).
Proof.
  split; [reflexivity | split].
  - intros db Ho. now rewrite create_booking_run, Ho.
  - intros db o Ho Hr. now rewrite create_booking_run, Ho, Hr.
Qed.

Lemma create_booking_checks_in_order_witness :
  create_booking (lib := iso_runtime)
    (Booking.mk Sample.seaside "deluxe" "Dee" "dee@example.org"
       (Sample.jan 12) (Sample.jan 20) 2 0 "confirmed")
    (Some Sample.db_january) =
  (Raise InvalidId, Some Sample.db_january) /\
  create_booking (lib := iso_runtime)
    (Booking.mk Sample.seaside Demo.no_room "Dee" "dee@example.org"
       (Sample.jan 12) (Sample.jan 20) 2 0 "confirmed")
    (Some Sample.db_january) =
  (Raise NotFoundError, Some Sample.db_january).
Proof.
  split.
  - apply (proj1 (proj2 (create_booking_checks_in_order
             (Booking.mk Sample.seaside "deluxe" "Dee" "dee@example.org"
                (Sample.jan 12) (Sample.jan 20) 2 0 "confirmed")))).
    vm_compute. reflexivity.
  - apply (proj2 (proj2 (create_booking_checks_in_order
             (Booking.mk Sample.seaside Demo.no_room "Dee" "dee@example.org"
                (Sample.jan 12) (Sample.jan 20) 2 0 "confirmed")))
             Sample.db_january Demo.no_room);
      vm_compute; reflexivity.
Defined.

(** X8: the booking handler only appends. Whatever the outcome on a
    configured store, the rooms are untouched and the bookings stored before
    are still there, in place; a failure adds nothing, and a success adds
    one document, under the identifier of the confirmation, which carries
    the room, the hotel, the guest and the number of guests of the payload
    and the two dates in ISO form. *)
Theorem create_booking_appends {lib : PyLib} (payload : Booking.t)
  (db : database) (res : result BookingResponse) (w' : world) :
  create_booking payload (Some db) = (res, w') ->
  exists db',
    w' = Some db' /\
    room db' = room db /\
    match res with
    | Raise _ => db' = db
    | Ok resp =>
        exists d,
          booking db' = booking db ++ [mkstored (booking_id resp) d] /\
          inserted db' = S (inserted db) /\
          BookingDoc.room_id d = Booking.room_id payload /\
          BookingDoc.hotel_id d = Booking.hotel_id payload /\
          BookingDoc.guest_name d = Booking.guest_name payload /\
          BookingDoc.guest_email d = Booking.guest_email payload /\
          BookingDoc.guests d = Booking.guests payload /\
          BookingDoc.check_in d = isoformat (Booking.check_in payload) /\
          BookingDoc.check_out d = isoformat (Booking.check_out payload)
    end.
Proof.
  intros Hrun. destruct res as [resp | e].
  - apply create_booking_ok_inv in Hrun.
    destruct Hrun as (db0 & o & r & [= <-] & _ & _ & _ & _ & -> & ->).
    eexists. split; [reflexivity |]. split; [reflexivity |].
    exists (document_for payload r). now repeat split.
  - apply create_booking_raise_unchanged in Hrun. subst w'.
    exists db. now repeat split.
Qed.

Lemma create_booking_appends_witness :
  exists db',
    Sample.booked Sample.db_january
      (Sample.request (Sample.jan 15) (Sample.jan 18) 0 "confirmed")
      Sample.deluxe = Some db' /\
    room db' = room Sample.db_january /\
    exists d,
      booking db' =
      booking Sample.db_january ++
      [mkstored (booking_id (Sample.confirmation 1 (PyFloat 960))) d] /\
      inserted db' = S (inserted Sample.db_january) /\
      BookingDoc.room_id d = _id Sample.deluxe /\
      BookingDoc.hotel_id d = Sample.seaside /\
      BookingDoc.guest_name d = "Bob"%string /\
      BookingDoc.guest_email d = "bob@example.org"%string /\
      BookingDoc.guests d = 2 /\
      BookingDoc.check_in d = isoformat (Sample.jan 15) /\
      BookingDoc.check_out d = isoformat (Sample.jan 18).
Proof.
  apply (create_booking_appends (lib := iso_runtime)
           (Sample.request (Sample.jan 15) (Sample.jan 18) 0 "confirmed")
           Sample.db_january (Ok (Sample.confirmation 1 (PyFloat 960)))).
  vm_compute. reflexivity.
Defined.

(** X9: the answer to a booking request depends on the room and the two
    dates only. Two requests for the same stay get the same confirmation or
    the same error, whatever guests, names, hotel, price and status they
    carry: the booking handler checks neither the number of guests against
    the capacity of the room nor the hotel against the room. *)
Theorem create_booking_reads_stay_only {lib : PyLib} (p p' : Booking.t) (w : world) :
  same_stay p p' ->
  fst (create_booking p w) = fst (create_booking p' w).
Proof.
  intros (Hroom & Hci & Hco). destruct w as [db |]; [| reflexivity].
  rewrite !create_booking_run. unfold bookings_for, total_for, nights.
  rewrite Hroom, Hci, Hco.
  destruct (ObjectId (Booking.room_id p')) as [o |]; trivial.
  destruct (find_one_room db o) as [r |]; trivial.
  now destruct (fst (reject_overlaps (Booking.check_in p')
                       (Booking.check_out p')
                       (find_bookings_by_room db (Booking.room_id p'))
                       (Some db))).
Qed.

Lemma create_booking_reads_stay_only_witness :
  fst (create_booking (lib := iso_runtime)
         (Demo.request_for 9 (Sample.jan 15) (Sample.jan 18))
         (Some Sample.db_january)) =
  fst (create_booking (lib := iso_runtime)
         (Sample.request (Sample.jan 15) (Sample.jan 18) 0 "confirmed")
         (Some Sample.db_january)).
Proof.
  apply (create_booking_reads_stay_only (lib := iso_runtime)).
  repeat split.
Defined.

(** ** How the two handlers compose *)

Section Composition.

Context {lib : PyLib}.

Lemma find_bookings_after_insert (db : database) (d : BookingDoc.t) (rid : string) :
  find_bookings_by_room (insert_one db d) rid =
  find_bookings_by_room db rid ++
  (if String.eqb (BookingDoc.room_id d) rid
   then [mkstored (generate_id (inserted db)) d] else []).
Proof.
  unfold find_bookings_by_room, insert_one. simpl.
  rewrite filter_app. simpl. now destruct (String.eqb _ _).
Qed.

Lemma stored_range_document_for (payload : Booking.t) (r : stored Room.t) (i : oid) :
  reads_back_dates ->
  Date.valid (Booking.check_in payload) = true ->
  Date.valid (Booking.check_out payload) = true ->
  stored_range (mkstored i (document_for payload r)) =
  Some (Booking.check_in payload, Booking.check_out payload).
Proof.
  intros Hread Hci Hco. unfold stored_range. simpl.
  now rewrite (Hread _ Hci), (Hread _ Hco).
Qed.

(** The document a booking leaves conflicts with exactly the ranges that
    overlap the stay booked. *)
Lemma conflictb_document_for (payload : Booking.t) (r : stored Room.t)
  (i : oid) (ci co : date) :
  reads_back_dates ->
  Date.valid (Booking.check_in payload) = true ->
  Date.valid (Booking.check_out payload) = true ->
  conflictb ci co (mkstored i (document_for payload r)) =
  overlaps ci co (Booking.check_in payload) (Booking.check_out payload).
Proof.
  intros Hread Hci Hco. unfold conflictb.
  now rewrite (stored_range_document_for payload r i Hread Hci Hco).
Qed.

End Composition.

(** X10: a stay that has been booked blocks the stays that overlap it. On a
    runtime that reads back the dates it writes, after a booking of two
    dates that exist has succeeded, a later request for the same room
    identifier whose range overlaps the stay cannot succeed: it is refused
    with the conflict error and the store stays as the booking left it; so
    is the same request sent again, when its check-out is after its
    check-in. *)
Theorem booked_stay_blocks_later_requests {lib : PyLib} (p p' : Booking.t)
  (db db' : database) (resp : BookingResponse) :
  reads_back_dates ->
  Date.valid (Booking.check_in p) = true ->
  Date.valid (Booking.check_out p) = true ->
  create_booking p (Some db) = (Ok resp, Some db') ->
  Booking.room_id p' = Booking.room_id p ->
  overlaps (Booking.check_in p') (Booking.check_out p')
    (Booking.check_in p) (Booking.check_out p) = true ->
  (forall resp' w'', create_booking p' (Some db') <> (Ok resp', w'')) /\
  create_booking p' (Some db') = (Raise ConflictError, Some db') /\
  ((Booking.check_in p <? Booking.check_out p)%date = true ->
   create_booking p (Some db') = (Raise ConflictError, Some db')).
Proof.
  intros Hread Hci Hco Hrun Hroom Hov.
  apply create_booking_ok_inv in Hrun.
  destruct Hrun as (db0 & o & r & [= <-] & Ho & Hr & Hwf & _ & _ & [= ->]).
  assert (Hblocked : forall q : Booking.t,
            Booking.room_id q = Booking.room_id p ->
            overlaps (Booking.check_in q) (Booking.check_out q)
              (Booking.check_in p) (Booking.check_out p) = true ->
            create_booking q (Some (insert_one db (document_for p r))) =
            (Raise ConflictError, Some (insert_one db (document_for p r)))).
  { intros q Hq Hovq.
    assert (Hfor : bookings_for (insert_one db (document_for p r)) q =
                   bookings_for db p ++
                   [mkstored (generate_id (inserted db)) (document_for p r)]).
    { unfold bookings_for. rewrite find_bookings_after_insert, Hq.
      simpl. now rewrite String.eqb_refl. }
    rewrite (create_booking_well_formed q _ o r).
    - rewrite Hfor, existsb_app. simpl.
      rewrite (conflictb_document_for p r _ _ _ Hread Hci Hco), Hovq.
      now rewrite orb_true_r.
    - now rewrite Hq.
    - exact Hr.
    - rewrite Hfor, forallb_app, Hwf. simpl. unfold well_formed.
      now rewrite (stored_range_document_for p r _ Hread Hci Hco). }
  split; [| split].
  - intros resp' w'' Hok. rewrite (Hblocked p' Hroom Hov) in Hok. discriminate.
  - now apply Hblocked.
  - intros Hlt. apply Hblocked; trivial.
    now rewrite overlaps_ltb, Hlt.
Qed.

Lemma booked_stay_blocks_later_requests_witness :
  let again := Sample.request (Sample.jan 15) (Sample.jan 18) 0 "confirmed" in
  let after := Sample.booked Sample.db_january again Sample.deluxe in
  create_booking (lib := iso_runtime)
    (Demo.request_for 1 (Sample.jan 17) (Sample.jan 19)) after =
  (Raise ConflictError, after) /\
  create_booking (lib := iso_runtime) again after = (Raise ConflictError, after).
Proof.
  destruct (booked_stay_blocks_later_requests (lib := iso_runtime)
              (Sample.request (Sample.jan 15) (Sample.jan 18) 0 "confirmed")
              (Demo.request_for 1 (Sample.jan 17) (Sample.jan 19))
              Sample.db_january
              (insert_one (lib := iso_runtime) Sample.db_january
                 (document_for (lib := iso_runtime)
                    (Sample.request (Sample.jan 15) (Sample.jan 18) 0 "confirmed")
                    Sample.deluxe))
              (Sample.confirmation 1 (PyFloat 960)))
    as (_ & Hlater & Hagain).
  - exact IsoFacts.fromisoformat_isoformat.
  - vm_compute. reflexivity.
  - vm_compute. reflexivity.
  - vm_compute. reflexivity.
  - reflexivity.
  - vm_compute. reflexivity.
  - split; [exact Hlater | apply Hagain; vm_compute; reflexivity].
Defined.

(** X11: a room the availability handler offers can be booked. When a
    query is answered with a room in the list, a booking request for the
    identifier of this room and the two dates of the query succeeds on the
    same store, provided the identifier resolves to a room document: it
    stores the booking and answers the price of the nights, whatever the
    number of guests of the request. *)
Theorem available_room_can_be_booked {lib : PyLib} (h : string)
  (q : AvailabilityQuery.t) (db : database) (w' : world)
  (resp : AvailabilityResponse) (r r' : stored Room.t) (ci co : date)
  (p : Booking.t) (o : oid) :
  check_availability h q (Some db) = (Ok resp, w') ->
  In (serialize_doc r) (available resp) ->
  fromisoformat (AvailabilityQuery.check_in q) = Some ci ->
  fromisoformat (AvailabilityQuery.check_out q) = Some co ->
  Booking.room_id p = _id r ->
  Booking.check_in p = ci ->
  Booking.check_out p = co ->
  ObjectId (_id r) = Some o ->
  find_one_room db o = Some r' ->
  create_booking p (Some db) =
  (Ok {| booking_id := generate_id (inserted db);
         total_price := total_for p r';
         status := "confirmed" |},
   Some (insert_one db (document_for p r'))).
Proof.
  intros Hrun Hin Hci Hco Hroom Hpci Hpco Ho Hr.
  rewrite check_availability_run, Hci, Hco in Hrun.
  destruct (co <=? ci)%date; [discriminate |].
  pose proof (rooms_loop_cases db ci co (AvailabilityQuery.guests q)
                (find_rooms_by_hotel db h) [] (Some db)) as Hloop.
  destruct (fst (rooms_loop db ci co _ _ _ _)) as [l | e]; [| discriminate].
  injection Hrun as <- _. simpl in Hin.
  destruct Hloop as [-> Hscan]. simpl in Hin.
  apply in_serialized, filter_In in Hin. destruct Hin as [Hin Hacc].
  assert (Hno : existsb (conflictb ci co)
                  (find_bookings_by_room db (_id r)) = false).
  { unfold accepted in Hacc. apply andb_true_iff in Hacc.
    now apply negb_true_iff. }
  rewrite (create_booking_well_formed p db o r').
  - unfold bookings_for. now rewrite Hroom, Hpci, Hpco, Hno.
  - now rewrite Hroom.
  - exact Hr.
  - unfold bookings_for. rewrite Hroom. now apply Hscan.
Qed.

Lemma available_room_can_be_booked_witness :
  create_booking (lib := iso_runtime)
    (Demo.request_for 9 (Sample.jan 16) (Sample.jan 18))
    (Some Sample.db_january) =
  (Ok {| booking_id := generate_id (inserted Sample.db_january);
         total_price :=
           total_for (Demo.request_for 9 (Sample.jan 16) (Sample.jan 18))
             Sample.deluxe;
         status := "confirmed" |},
   Some (insert_one Sample.db_january
           (document_for (Demo.request_for 9 (Sample.jan 16) (Sample.jan 18))
              Sample.deluxe))).
Proof.
  apply (available_room_can_be_booked (lib := iso_runtime) Sample.seaside
           (Sample.query "2024-01-16" "2024-01-18" 2) Sample.db_january
           (Some Sample.db_january)
           {| available := [serialize_doc Sample.deluxe; serialize_doc Sample.family] |}
           Sample.deluxe Sample.deluxe (Sample.jan 16) (Sample.jan 18)
           (Demo.request_for 9 (Sample.jan 16) (Sample.jan 18))
           (_id Sample.deluxe)).
  - vm_compute. reflexivity.
  - simpl. left. reflexivity.
  - vm_compute. reflexivity.
  - vm_compute. reflexivity.
  - reflexivity.
  - reflexivity.
  - reflexivity.
  - vm_compute. reflexivity.
  - vm_compute. reflexivity.
Defined.

(** X12: a room that has been booked is no longer offered. On a runtime
    that reads back the dates it writes, after a booking of two dates that
    exist has succeeded, an availability query whose range overlaps the stay
    does not list the room whose identifier the request carried. *)
Theorem booked_room_is_not_offered {lib : PyLib} (p : Booking.t)
  (db db' : database) (resp : BookingResponse) (h : string)
  (q : AvailabilityQuery.t) (resp' : AvailabilityResponse) (w'' : world)
  (r : stored Room.t) (ci co : date) :
  reads_back_dates ->
  Date.valid (Booking.check_in p) = true ->
  Date.valid (Booking.check_out p) = true ->
  create_booking p (Some db) = (Ok resp, Some db') ->
  _id r = Booking.room_id p ->
  fromisoformat (AvailabilityQuery.check_in q) = Some ci ->
  fromisoformat (AvailabilityQuery.check_out q) = Some co ->
  overlaps ci co (Booking.check_in p) (Booking.check_out p) = true ->
  check_availability h q (Some db') = (Ok resp', w'') ->
  ~ In (serialize_doc r) (available resp').
Proof.
  intros Hread Hvci Hvco Hrun Hroom Hci Hco Hov Havail Hin.
  apply create_booking_ok_inv in Hrun.
  destruct Hrun as (db0 & o & r0 & [= <-] & _ & _ & _ & _ & _ & [= ->]).
  apply check_availability_ok_inv in Havail.
  destruct Havail as (db1 & a & b & [= <-] & _ & Ha & Hb & _ & Heq).
  rewrite Hci in Ha. rewrite Hco in Hb. injection Ha as <-. injection Hb as <-.
  rewrite Heq, in_serialized, filter_In, accepted_iff in Hin.
  destruct Hin as (_ & _ & Hno).
  specialize (Hno (mkstored (generate_id (inserted db)) (document_for p r0))).
  rewrite (conflictb_document_for p r0 _ _ _ Hread Hvci Hvco), Hov in Hno.
  assert (Hfalse : true = false); [| discriminate].
  apply Hno. rewrite find_bookings_after_insert. apply in_or_app. right.
  rewrite Hroom. simpl. rewrite String.eqb_refl. now left.
Qed.

Lemma booked_room_is_not_offered_witness :
  ~ In (serialize_doc Sample.deluxe) [serialize_doc Sample.family].
Proof.
  apply (booked_room_is_not_offered (lib := iso_runtime)
           (Sample.request (Sample.feb 1) (Sample.feb 4) 0 "confirmed")
           Sample.db_free
           (insert_one (lib := iso_runtime) Sample.db_free
              (document_for (lib := iso_runtime)
                 (Sample.request (Sample.feb 1) (Sample.feb 4) 0 "confirmed")
                 Sample.deluxe))
           (Sample.confirmation 0 (PyFloat 960)) Sample.seaside
           (Sample.query "2024-02-03" "2024-02-05" 2)
           {| available := [serialize_doc Sample.family] |}
           (Some (insert_one (lib := iso_runtime) Sample.db_free
                    (document_for (lib := iso_runtime)
                       (Sample.request (Sample.feb 1) (Sample.feb 4) 0 "confirmed")
                       Sample.deluxe)))
           Sample.deluxe (Sample.feb 3) (Sample.feb 5)).
  - exact IsoFacts.fromisoformat_isoformat.
  - vm_compute. reflexivity.
  - vm_compute. reflexivity.
  - vm_compute. reflexivity.
  - reflexivity.
  - vm_compute. reflexivity.
  - vm_compute. reflexivity.
  - vm_compute. reflexivity.
  - vm_compute. reflexivity.
Defined.

(** X13: the conflict check goes by the string of the room identifier. The
    room is looked up by [ObjectId(room_id)], the bookings by the string
    [room_id] itself: when the identifier resolves to a room and no stored
    booking carries the same string, the request is booked, whatever
    bookings the store holds under other strings. *)
Theorem conflict_check_is_by_room_id_string {lib : PyLib} (p : Booking.t)
  (db : database) (o : oid) (r : stored Room.t) :
  ObjectId (Booking.room_id p) = Some o ->
  find_one_room db o = Some r ->
  (forall b, In b (booking db) ->
     BookingDoc.room_id (doc b) <> Booking.room_id p) ->
  create_booking p (Some db) =
  (Ok {| booking_id := generate_id (inserted db);
         total_price := total_for p r;
         status := "confirmed" |},
   Some (insert_one db (document_for p r))).
Proof.
  intros Ho Hr Hnone.
  assert (Hempty : bookings_for db p = []).
  { unfold bookings_for, find_bookings_by_room.
    induction (booking db) as [| b rest IH]; simpl; trivial.
    destruct (String.eqb_spec (BookingDoc.room_id (doc b)) (Booking.room_id p))
      as [Heq | _].
    - exfalso. apply (Hnone b); [now left | exact Heq].
    - apply IH. intros b' Hin. apply Hnone. now right. }
  rewrite (create_booking_well_formed p db o r Ho Hr); now rewrite Hempty.
Qed.

Lemma conflict_check_is_by_room_id_string_witness :
  let shouting :=
    Booking.mk Sample.seaside "65A000000000000000000001" "Eve"
      "eve@example.org" (Sample.jan 12) (Sample.jan 20) 2 0 "confirmed" in
  create_booking (lib := iso_runtime) shouting (Some Sample.db_january) =
  (Ok {| booking_id := generate_id (inserted Sample.db_january);
         total_price := total_for shouting Sample.deluxe;
         status := "confirmed" |},
   Some (insert_one Sample.db_january (document_for shouting Sample.deluxe))).
Proof.
  apply (conflict_check_is_by_room_id_string (lib := iso_runtime)
           (Booking.mk Sample.seaside "65A000000000000000000001" "Eve"
              "eve@example.org" (Sample.jan 12) (Sample.jan 20) 2 0 "confirmed")
           Sample.db_january (_id Sample.deluxe) Sample.deluxe).
  - vm_compute. reflexivity.
  - vm_compute. reflexivity.
  - intros b Hin. vm_compute in Hin. destruct Hin as [<- | []].
    simpl. discriminate.
Defined.

(** ** The nights that are charged *)

(** X14: for a booking of two dates that exist, the price answered is the
    number of nights times the price of the room found, and the number of
    nights is positive exactly when the check-out is after the check-in,
    zero exactly when the two are the same day, and negative exactly when
    the check-out is before the check-in. *)
Theorem charged_nights {lib : PyLib} (p : Booking.t) (w w' : world)
  (resp : BookingResponse) :
  Date.valid (Booking.check_in p) = true ->
  Date.valid (Booking.check_out p) = true ->
  create_booking p w = (Ok resp, w') ->
  (exists db o r,
     w = Some db /\ ObjectId (Booking.room_id p) = Some o /\
     find_one_room db o = Some r /\
     total_price resp = py_mul_int (nights p) (price_of r)) /\
  ((Booking.check_in p <? Booking.check_out p)%date = true <-> 0 < nights p) /\
  (Booking.check_out p = Booking.check_in p <-> nights p = 0) /\
  ((Booking.check_out p <? Booking.check_in p)%date = true <-> nights p < 0).
Proof.
  intros Hci Hco Hrun. split.
  - apply create_booking_ok_inv in Hrun.
    destruct Hrun as (db & o & r & Hw & Ho & Hr & _ & _ & -> & _).
    now exists db, o, r.
  - unfold nights.
    destruct (DateFacts.sub_days_positive _ _ Hci Hco) as (Hpos & _ & Hzero).
    destruct (DateFacts.sub_days_positive _ _ Hco Hci) as (Hneg & _ & _).
    assert (Hopp : Date.sub_days (Booking.check_in p) (Booking.check_out p) =
                   - Date.sub_days (Booking.check_out p) (Booking.check_in p))
      by (unfold Date.sub_days; lia).
    rewrite Hopp in Hneg.
    split; [exact Hpos | split].
    + split; intros H; now apply Hzero.
    + rewrite Hneg. lia.
Qed.

Lemma charged_nights_witness :
  (Sample.feb 1 <? Sample.feb 4)%date = true <->
  0 < nights (Sample.request (Sample.feb 1) (Sample.feb 4) 0 "confirmed").
Proof.
  apply (charged_nights (lib := iso_runtime)
           (Sample.request (Sample.feb 1) (Sample.feb 4) 0 "confirmed")
           (Some Sample.db_free)
           (Sample.booked Sample.db_free
              (Sample.request (Sample.feb 1) (Sample.feb 4) 0 "confirmed")
              Sample.deluxe)
           (Sample.confirmation 0 (PyFloat 960)));
    vm_compute; reflexivity.
Defined.

(** ** Listing the bookings *)

(** X15: a booking that has succeeded is listed. After the request the list
    of all bookings is the list from before followed by one entry, whose
    [id] is the identifier of the confirmation, whose price is the price of
    the confirmation, and which carries the room and the status of the
    payload; listing leaves the store as it is. *)
Theorem new_booking_is_listed {lib : PyLib} (p : Booking.t) (w w' : world)
  (resp : BookingResponse) :
  create_booking p w = (Ok resp, w') ->
  exists before entry,
    list_bookings w = (Ok before, w) /\
    list_bookings w' = (Ok (before ++ [entry]), w') /\
    id entry = booking_id resp /\
    BookingDoc.total_price (fields entry) = total_price resp /\
    BookingDoc.room_id (fields entry) = Booking.room_id p /\
    BookingDoc.status (fields entry) = Booking.status p.
Proof.
  intros Hrun. apply create_booking_ok_inv in Hrun.
  destruct Hrun as (db & o & r & -> & _ & _ & _ & _ & -> & ->).
  exists (map serialize_doc (booking db)).
  exists (serialize_doc
            (mkstored (generate_id (inserted db)) (document_for p r))).
  unfold list_bookings, get_documents, bind, ret. simpl.
  rewrite map_app. simpl. now repeat split.
Qed.

Lemma new_booking_is_listed_witness :
  let req := Sample.request (Sample.jan 15) (Sample.jan 18) 0 "confirmed" in
  exists before entry,
    list_bookings (Some Sample.db_january) =
    (Ok before, Some Sample.db_january) /\
    list_bookings (Sample.booked Sample.db_january req Sample.deluxe) =
    (Ok (before ++ [entry]),
     Sample.booked Sample.db_january req Sample.deluxe) /\
    id entry = booking_id (Sample.confirmation 1 (PyFloat 960)) /\
    BookingDoc.total_price (fields entry) =
    total_price (Sample.confirmation 1 (PyFloat 960)) /\
    BookingDoc.room_id (fields entry) = Booking.room_id req /\
    BookingDoc.status (fields entry) = Booking.status req.
Proof.
  apply (new_booking_is_listed (lib := iso_runtime)
           (Sample.request (Sample.jan 15) (Sample.jan 18) 0 "confirmed")
           (Some Sample.db_january)).
  vm_compute. reflexivity.
Defined.

(** ** The page of a hotel *)

Section HotelPage.

Context {lib : PyLib}.

Lemma get_hotel_run (hotels : list (stored Hotel.t)) (hid : string) (db : database) :
  get_hotel hotels hid (Some db) =
  match ObjectId hid with
  | None => (Raise InvalidId, Some db)
  | Some o =>
      match find_one_hotel hotels o with
      | None => (Raise (HTTPException 404 "Hotel not found"), Some db)
      | Some d =>
          (Ok {| HotelResponse.hotel := serialize_doc d;
                 HotelResponse.rooms :=
                   map serialize_doc (find_rooms_by_hotel db hid) |},
           Some db)
      end
  end.
Proof.
  unfold get_hotel. run.
  destruct (ObjectId hid) as [o |]; simpl; trivial.
  now destruct (find_one_hotel hotels o).
Qed.

End HotelPage.

(** X16: the page of a hotel. The handler never writes; without a store it
    answers the 500 "Database not configured"; an identifier that is not an
    [ObjectId] raises [InvalidId], which the handler does not catch; an
    identifier that names no hotel gives the 404 "Hotel not found"; and for
    a hotel that is found the page holds the hotel and the rooms whose
    [hotel_id] is the string asked for, in the order of the store. *)
Theorem get_hotel_cases {lib : PyLib} (hotels : list (stored Hotel.t))
  (hid : string) :
  (forall w, snd (get_hotel hotels hid w) = w) /\
  get_hotel hotels hid None = (Raise StorageUnavailableError, None) /\
  (forall db,
     ObjectId hid = None ->
     get_hotel hotels hid (Some db) = (Raise InvalidId, Some db)) /\
  (forall db o,
     ObjectId hid = Some o ->
     find_one_hotel hotels o = None ->
     get_hotel hotels hid (Some db) =
     (Raise (HTTPException 404 "Hotel not found"), Some db)) /\
  (forall db o d,
     ObjectId hid = Some o ->
     find_one_hotel hotels o = Some d ->
     In d hotels /\ _id d = o /\
     get_hotel hotels hid (Some db) =
     (Ok {| HotelResponse.hotel := serialize_doc d;
            HotelResponse.rooms :=
              map serialize_doc
                (filter (fun r => String.eqb (Room.hotel_id (doc r)) hid)
                   (room db)) |},
      Some db)).
Proof.
  split; [| split; [reflexivity | split; [| split]]].
  - intros [db |]; [| reflexivity]. rewrite get_hotel_run.
    destruct (ObjectId hid) as [o |]; trivial.
    now destruct (find_one_hotel hotels o).
  - intros db Ho. now rewrite get_hotel_run, Ho.
  - intros db o Ho Hnone. now rewrite get_hotel_run, Ho, Hnone.
  - intros db o d Ho Hd. rewrite get_hotel_run, Ho, Hd.
    apply find_some in Hd. destruct Hd as [Hin Heq].
    apply String.eqb_eq in Heq. now repeat split.
Qed.

Lemma get_hotel_cases_witness :
  get_hotel (lib := iso_runtime) Demo.hotels "seaside" (Some Sample.db_free) =
  (Raise InvalidId, Some Sample.db_free) /\
  get_hotel (lib := iso_runtime) Demo.hotels Demo.no_room (Some Sample.db_free) =
  (Raise (HTTPException 404 "Hotel not found"), Some Sample.db_free) /\
  get_hotel (lib := iso_runtime) Demo.hotels Sample.seaside (Some Sample.db_free) =
  (Ok {| HotelResponse.hotel := serialize_doc Demo.seaside_resort;
         HotelResponse.rooms :=
           map serialize_doc
             (filter (fun r => String.eqb (Room.hotel_id (doc r)) Sample.seaside)
                (room Sample.db_free)) |},
   Some Sample.db_free).
Proof.
  split; [| split].
  - apply (proj1 (proj2 (proj2 (get_hotel_cases (lib := iso_runtime)
             Demo.hotels "seaside")))).
    vm_compute. reflexivity.
  - apply (proj1 (proj2 (proj2 (proj2 (get_hotel_cases (lib := iso_runtime)
             Demo.hotels Demo.no_room))))
             Sample.db_free Demo.no_room);
      vm_compute; reflexivity.
  - apply (proj2 (proj2 (proj2 (proj2 (get_hotel_cases (lib := iso_runtime)
             Demo.hotels Sample.seaside))))
             Sample.db_free Sample.seaside Demo.seaside_resort);
      vm_compute; reflexivity.
Defined.

(** X17: the rooms an availability query offers are rooms of the page of
    the hotel. When the query for a hotel identifier and the page of the
    same identifier are both answered on a store, every room offered is on
    the page. *)
Theorem offered_rooms_are_on_the_page {lib : PyLib}
  (hotels : list (stored Hotel.t)) (hid : string) (q : AvailabilityQuery.t)
  (db : database) (w1 w2 : world) (resp : AvailabilityResponse)
  (page : HotelResponse.t) :
  check_availability hid q (Some db) = (Ok resp, w1) ->
  get_hotel hotels hid (Some db) = (Ok page, w2) ->
  forall x, In x (available resp) -> In x (HotelResponse.rooms page).
Proof.
  intros Havail Hpage.
  apply check_availability_ok_inv in Havail.
  destruct Havail as (db' & ci & co & [= <-] & _ & _ & _ & _ & ->).
  rewrite get_hotel_run in Hpage.
  destruct (ObjectId hid) as [o |]; [| discriminate].
  destruct (find_one_hotel hotels o) as [d |]; [| discriminate].
  injection Hpage as <- _. simpl.
  intros x. rewrite !in_map_iff. intros (r & <- & Hin).
  exists r. split; trivial. apply filter_In in Hin. apply Hin.
Qed.

Lemma offered_rooms_are_on_the_page_witness :
  In (serialize_doc Sample.family)
    [serialize_doc Sample.deluxe; serialize_doc Sample.family].
Proof.
  apply (offered_rooms_are_on_the_page (lib := iso_runtime) Demo.hotels
           Sample.seaside (Sample.query "2024-01-12" "2024-01-14" 2)
           Sample.db_january (Some Sample.db_january) (Some Sample.db_january)
           {| available := [serialize_doc Sample.family] |}
           {| HotelResponse.hotel := serialize_doc Demo.seaside_resort;
              HotelResponse.rooms :=
                [serialize_doc Sample.deluxe; serialize_doc Sample.family] |}
           eq_refl eq_refl (serialize_doc Sample.family)).
  simpl. left. reflexivity.
Defined.

(** X18: the availability handler does not look the hotel up. For a hotel
    identifier that no room carries, a query with a valid range is answered
    with the empty list, whatever the identifier is and whatever bookings
    the store holds, where the page of the hotel would be a 404 or an
    [InvalidId]. *)
Theorem unknown_hotel_has_no_rooms {lib : PyLib} (hid : string)
  (q : AvailabilityQuery.t) (db : database) (ci co : date) :
  (forall r, In r (room db) -> Room.hotel_id (doc r) <> hid) ->
  fromisoformat (AvailabilityQuery.check_in q) = Some ci ->
  fromisoformat (AvailabilityQuery.check_out q) = Some co ->
  (co <=? ci)%date = false ->
  check_availability hid q (Some db) = (Ok {| available := [] |}, Some db).
Proof.
  intros Hnone Hci Hco Hrange.
  assert (Hempty : find_rooms_by_hotel db hid = []).
  { unfold find_rooms_by_hotel.
    induction (room db) as [| r rest IH]; simpl; trivial.
    destruct (String.eqb_spec (Room.hotel_id (doc r)) hid) as [Heq | _].
    - exfalso. apply (Hnone r); [now left | exact Heq].
    - apply IH. intros r' Hin. apply Hnone. now right. }
  rewrite check_availability_run, Hci, Hco, Hrange, Hempty. reflexivity.
Qed.

Lemma unknown_hotel_has_no_rooms_witness :
  check_availability (lib := iso_runtime) "no such hotel"
    (Sample.query "2024-01-12" "2024-01-14" 2) (Some Demo.db_handwritten) =
  (Ok {| available := [] |}, Some Demo.db_handwritten).
Proof.
  apply (unknown_hotel_has_no_rooms (lib := iso_runtime) "no such hotel"
           (Sample.query "2024-01-12" "2024-01-14" 2) Demo.db_handwritten
           (Sample.jan 12) (Sample.jan 14)).
  - intros r Hin. vm_compute in Hin.
    destruct Hin as [<- | [<- | []]]; simpl; discriminate.
  - vm_compute. reflexivity.
  - vm_compute. reflexivity.
  - vm_compute. reflexivity.
Defined.

(** ** The store the booking handler builds *)

Lemma forallb_filter {A : Type} (f g : A -> bool) (l : list A) :
  forallb f l = true -> forallb f (filter g l) = true.
Proof.
  rewrite !forallb_forall. intros Hall x Hin.
  apply filter_In in Hin. now apply Hall.
Qed.

(** X4: the bookings of the store keep their ranges. On a runtime that
    reads back the dates it writes, when every stored booking has two dates
    that parse, a booking request for two dates that exist leaves a store of
    which this is still true, whether it succeeds or fails; and on that
    store every availability query with a valid range is answered. *)
Theorem stored_bookings_keep_ranges {lib : PyLib} (p : Booking.t)
  (db : database) (res : result BookingResponse) (w' : world) :
  reads_back_dates ->
  Date.valid (Booking.check_in p) = true ->
  Date.valid (Booking.check_out p) = true ->
  forallb well_formed (booking db) = true ->
  create_booking p (Some db) = (res, w') ->
  exists db',
    w' = Some db' /\
    forallb well_formed (booking db') = true /\
    forall h q ci co,
      fromisoformat (AvailabilityQuery.check_in q) = Some ci ->
      fromisoformat (AvailabilityQuery.check_out q) = Some co ->
      (co <=? ci)%date = false ->
      exists resp, check_availability h q (Some db') = (Ok resp, Some db').
Proof.
  intros Hread Hci Hco Hwf Hrun.
  assert (Hkept : exists db', w' = Some db' /\
                    forallb well_formed (booking db') = true).
  { destruct res as [resp | e].
    - apply create_booking_ok_inv in Hrun.
      destruct Hrun as (db0 & o & r & [= <-] & _ & _ & _ & _ & _ & ->).
      eexists. split; [reflexivity |]. simpl.
      rewrite forallb_app, Hwf. simpl. unfold well_formed.
      now rewrite (stored_range_document_for p r _ Hread Hci Hco).
    - apply create_booking_raise_unchanged in Hrun. subst w'. now exists db. }
  destruct Hkept as (db' & -> & Hwf').
  exists db'. repeat split; trivial.
  intros h q ci co Hqci Hqco Hrange. eexists.
  apply (check_availability_well_formed h q db' ci co Hqci Hqco Hrange).
  intros r _. now apply forallb_filter.
Qed.

Lemma stored_bookings_keep_ranges_witness :
  exists db',
    Sample.booked Sample.db_january
      (Sample.request (Sample.jan 15) (Sample.jan 18) 0 "confirmed")
      Sample.deluxe = Some db' /\
    forallb well_formed (booking db') = true /\
    forall h q ci co,
      fromisoformat (AvailabilityQuery.check_in q) = Some ci ->
      fromisoformat (AvailabilityQuery.check_out q) = Some co ->
      (co <=? ci)%date = false ->
      exists resp, check_availability h q (Some db') = (Ok resp, Some db').
Proof.
  apply (stored_bookings_keep_ranges (lib := iso_runtime)
           (Sample.request (Sample.jan 15) (Sample.jan 18) 0 "confirmed")
           Sample.db_january (Ok (Sample.confirmation 1 (PyFloat 960)))).
  - exact IsoFacts.fromisoformat_isoformat.
  - vm_compute. reflexivity.
  - vm_compute. reflexivity.
  - vm_compute. reflexivity.
  - vm_compute. reflexivity.
Defined.

(** ** Bookings of one room do not touch the others *)

Section Locality.

Context {lib : PyLib}.

(** The loop of the booking handler does not look at the store. *)
Lemma reject_overlaps_any_world (ci co : date) (bs : list (stored BookingDoc.t)) (w w' : world) :
  fst (reject_overlaps ci co bs w) = fst (reject_overlaps ci co bs w').
Proof.
  induction bs as [| b rest IH]; simpl; trivial.
  run.
  destruct (fromisoformat (BookingDoc.check_in (doc b))) as [b_ci |]; trivial.
  destruct (fromisoformat (BookingDoc.check_out (doc b))) as [b_co |]; trivial.
  simpl. destruct (overlaps ci co b_ci b_co); trivial.
Qed.

Lemma find_bookings_other_room (db : database) (d : BookingDoc.t) (rid : string) :
  rid <> BookingDoc.room_id d ->
  find_bookings_by_room (insert_one db d) rid = find_bookings_by_room db rid.
Proof.
  intros Hneq. rewrite find_bookings_after_insert.
  destruct (String.eqb_spec (BookingDoc.room_id d) rid) as [Heq | _].
  - now elim Hneq.
  - apply app_nil_r.
Qed.

End Locality.

(** X19: a booking does not get in the way of requests for other rooms.
    After a booking has succeeded, a request that carries another room
    identifier meets the same fate as before it: the same error, or a
    confirmation with the same price. *)
Theorem other_rooms_stay_bookable {lib : PyLib} (p1 p2 : Booking.t)
  (db db' : database) (resp1 : BookingResponse) :
  Booking.room_id p2 <> Booking.room_id p1 ->
  create_booking p1 (Some db) = (Ok resp1, Some db') ->
  match fst (create_booking p2 (Some db)) with
  | Raise e => create_booking p2 (Some db') = (Raise e, Some db')
  | Ok resp2 =>
      exists resp2' w2',
        create_booking p2 (Some db') = (Ok resp2', w2') /\
        total_price resp2' = total_price resp2 /\
        status resp2' = status resp2
  end.
Proof.
  intros Hneq Hrun1.
  apply create_booking_ok_inv in Hrun1.
  destruct Hrun1 as (db0 & o1 & r1 & [= <-] & _ & _ & _ & _ & _ & [= ->]).
  rewrite !create_booking_run. unfold bookings_for.
  rewrite (find_bookings_other_room db (document_for p1 r1) _ Hneq).
  change (find_one_room (insert_one db (document_for p1 r1)))
    with (find_one_room db).
  destruct (ObjectId (Booking.room_id p2)) as [o |]; simpl; trivial.
  destruct (find_one_room db o) as [r |]; simpl; trivial.
  rewrite (reject_overlaps_any_world _ _ _
             (Some (insert_one db (document_for p1 r1))) (Some db)).
  destruct (fst (reject_overlaps _ _ _ (Some db))); simpl; trivial.
  eexists. eexists. split; [reflexivity |]. now split.
Qed.

Lemma other_rooms_stay_bookable_witness :
  let family_stay :=
    Booking.mk Sample.seaside (_id Sample.family) "Fay" "fay@example.org"
      (Sample.jan 15) (Sample.jan 18) 4 0 "confirmed" in
  exists resp2' w2',
    create_booking (lib := iso_runtime) family_stay
      (Sample.booked Sample.db_january
         (Sample.request (Sample.jan 15) (Sample.jan 18) 0 "confirmed")
         Sample.deluxe) = (Ok resp2', w2') /\
    total_price resp2' = total_price (Sample.confirmation 1 (PyFloat 1350)) /\
    status resp2' = status (Sample.confirmation 1 (PyFloat 1350)).
Proof.
  apply (other_rooms_stay_bookable (lib := iso_runtime)
           (Sample.request (Sample.jan 15) (Sample.jan 18) 0 "confirmed")
           (Booking.mk Sample.seaside (_id Sample.family) "Fay"
              "fay@example.org" (Sample.jan 15) (Sample.jan 18) 4 0 "confirmed")
           Sample.db_january
           (insert_one (lib := iso_runtime) Sample.db_january
              (document_for (lib := iso_runtime)
                 (Sample.request (Sample.jan 15) (Sample.jan 18) 0 "confirmed")
                 Sample.deluxe))
           (Sample.confirmation 1 (PyFloat 960))).
  - simpl. discriminate.
  - vm_compute. reflexivity.
Defined.

(** X20: a booking does not change what an availability query says of the
    other rooms. When a query is answered before and after a booking has
    succeeded, a room whose identifier is not the one the request carried is
    in the second answer exactly when it is in the first. *)
Theorem other_rooms_stay_offered {lib : PyLib} (p : Booking.t)
  (db db' : database) (resp : BookingResponse) (h : string)
  (q : AvailabilityQuery.t) (resp1 resp2 : AvailabilityResponse)
  (w1 w2 : world) (r : stored Room.t) :
  create_booking p (Some db) = (Ok resp, Some db') ->
  _id r <> Booking.room_id p ->
  check_availability h q (Some db) = (Ok resp1, w1) ->
  check_availability h q (Some db') = (Ok resp2, w2) ->
  (In (serialize_doc r) (available resp1) <->
   In (serialize_doc r) (available resp2)).
Proof.
  intros Hrun Hneq Hq1 Hq2.
  apply create_booking_ok_inv in Hrun.
  destruct Hrun as (db0 & o & r0 & [= <-] & _ & _ & _ & _ & _ & [= ->]).
  apply check_availability_ok_inv in Hq1, Hq2.
  destruct Hq1 as (d1 & ci & co & [= <-] & _ & Hci & Hco & _ & ->).
  destruct Hq2 as (d2 & ci' & co' & [= <-] & _ & Hci' & Hco' & _ & ->).
  rewrite Hci in Hci'. rewrite Hco in Hco'.
  injection Hci' as <-. injection Hco' as <-.
  rewrite !in_serialized, !filter_In.
  change (find_rooms_by_hotel (insert_one db (document_for p r0)) h)
    with (find_rooms_by_hotel db h).
  unfold accepted.
  now rewrite (find_bookings_other_room db (document_for p r0) (_id r) Hneq).
Qed.

Lemma other_rooms_stay_offered_witness :
  In (serialize_doc Sample.family)
    [serialize_doc Sample.deluxe; serialize_doc Sample.family] <->
  In (serialize_doc Sample.family) [serialize_doc Sample.family].
Proof.
  apply (other_rooms_stay_offered (lib := iso_runtime)
           (Sample.request (Sample.feb 1) (Sample.feb 4) 0 "confirmed")
           Sample.db_free
           (insert_one (lib := iso_runtime) Sample.db_free
              (document_for (lib := iso_runtime)
                 (Sample.request (Sample.feb 1) (Sample.feb 4) 0 "confirmed")
                 Sample.deluxe))
           (Sample.confirmation 0 (PyFloat 960)) Sample.seaside
           (Sample.query "2024-02-03" "2024-02-05" 2)
           {| available := [serialize_doc Sample.deluxe; serialize_doc Sample.family] |}
           {| available := [serialize_doc Sample.family] |}
           (Some Sample.db_free)
           (Some (insert_one (lib := iso_runtime) Sample.db_free
                    (document_for (lib := iso_runtime)
                       (Sample.request (Sample.feb 1) (Sample.feb 4) 0 "confirmed")
                       Sample.deluxe)))
           Sample.family).
  - vm_compute. reflexivity.
  - simpl. discriminate.
  - vm_compute. reflexivity.
  - vm_compute. reflexivity.
Defined.
